(** * FDAM front end: the rule editor and the pagination control

    A shallow embedding of the parts of the fraud-monitoring dashboard's
    front end that carry data logic:

    - [app/(slides)/rules-config/page.tsx]: the rule editing form
      ([formData], [selectedRule]), its three condition handlers
      ([updateCondition], [removeCondition], [addCondition]) and the
      Create/Update button, which builds [ruleData] and sends it with
      [fetch];
    - [components/ui/Pagination.tsx]: the Previous / Next control;
    - [components/dashboard/*.tsx]: the render logic the four dashboard
      widgets share (query result, cached data, skeleton / error / content);
    - the filter bar of the dashboard and the login page, as event-driven
      state machines.

    React state is modelled by explicit state passing: a handler that
    reads [formData] and calls [setFormData] is a function from the old
    form to the new one.  JavaScript values are modelled as the run time
    has them, not only as the TypeScript interfaces promise them: an
    array can have holes and extra properties, an object can lack keys. *)

From Stdlib Require Import ZArith Lia Ascii String.
From stdpp Require Import base list.

Local Open Scope string_scope.
Local Open Scope Z_scope.
Local Open Scope list_scope.

(** ** JavaScript strings

    Strings are sequences of code units; the model covers the ASCII range
    (code units below 128), which contains every literal of the source
    files.  The two case conversions are those of the run time on that
    range only: outside it the run time follows the Unicode tables, which
    are not modelled, and a statement that depends on what a conversion
    computes assumes [is_ascii] of the string converted. *)

Module JsString.

(** [c.toUpperCase()] for one code unit: a..z go to A..Z, every other
    ASCII code unit is its own upper case. *)
Definition upper_char (c : ascii) : ascii :=
  let n := nat_of_ascii c in
  if ((97 <=? n) && (n <=? 122))%nat then ascii_of_nat (n - 32) else c.

(** [s.toUpperCase()] *)
Fixpoint toUpperCase (s : string) : string :=
  match s with
  | EmptyString => EmptyString
  | String c r => String (upper_char c) (toUpperCase r)
  end.

(** [s.charAt(n)]: the one-unit string at position [n], or the empty
    string when [n] is not a position of [s]. *)
Fixpoint charAt (n : nat) (s : string) : string :=
  match s, n with
  | EmptyString, _ => EmptyString
  | String c _, O => String c EmptyString
  | String _ r, S m => charAt m r
  end.

(** [s.slice(n)] for a non-negative [n]: [s] without its first [n] code
    units. *)
Fixpoint slice (n : nat) (s : string) : string :=
  match s, n with
  | EmptyString, _ => EmptyString
  | _, O => s
  | String _ r, S m => slice m r
  end.

(** Truthiness of a string: only the empty string is falsy. *)
Definition truthy (s : string) : bool :=
  match s with EmptyString => false | String _ _ => true end.

(** The strings of the range of the model: every code unit below 128. *)
Fixpoint is_ascii (s : string) : bool :=
  match s with
  | EmptyString => true
  | String c r => (nat_of_ascii c <? 128)%nat && is_ascii r
  end.

(** [c.toLowerCase()] for one code unit: A..Z go to a..z, every other
    ASCII code unit is its own lower case. *)
Definition lower_char (c : ascii) : ascii :=
  let n := nat_of_ascii c in
  if ((65 <=? n) && (n <=? 90))%nat then ascii_of_nat (n + 32) else c.

(** [s.toLowerCase()] *)
Fixpoint toLowerCase (s : string) : string :=
  match s with
  | EmptyString => EmptyString
  | String c r => String (lower_char c) (toLowerCase r)
  end.

End JsString.

(** ** Conditions *)

(** [interface Condition { field: string; operator: string; value: string }] *)
Record Condition := mkCondition {
  field : string;
  operator : string;
  value : string
}.

(** [keyof Condition] *)
Inductive ConditionKey := Kfield | Koperator | Kvalue.

(** Read and write of one attribute of a well-typed condition. *)
Definition Condition_get (k : ConditionKey) (c : Condition) : string :=
  match k with
  | Kfield => field c
  | Koperator => operator c
  | Kvalue => value c
  end.

Definition Condition_set (k : ConditionKey) (v : string) (c : Condition) : Condition :=
  match k with
  | Kfield => mkCondition v (operator c) (value c)
  | Koperator => mkCondition (field c) v (value c)
  | Kvalue => mkCondition (field c) (operator c) v
  end.

(** A condition object as the run time holds it: each of the three keys is
    an own property ([Some]) or absent ([None]).  The interface promises
    all three, an object spread of [undefined] delivers none. *)
Record CondObj := mkCondObj {
  obj_field : option string;
  obj_operator : option string;
  obj_value : option string
}.

(** [{}] *)
Definition empty_obj : CondObj := mkCondObj None None None.

(** [{ ...o, [k]: v }] on an object [o] *)
Definition obj_set (k : ConditionKey) (v : string) (o : CondObj) : CondObj :=
  match k with
  | Kfield => mkCondObj (Some v) (obj_operator o) (obj_value o)
  | Koperator => mkCondObj (obj_field o) (Some v) (obj_value o)
  | Kvalue => mkCondObj (obj_field o) (obj_operator o) (Some v)
  end.

Definition obj_get (k : ConditionKey) (o : CondObj) : option string :=
  match k with
  | Kfield => obj_field o
  | Koperator => obj_operator o
  | Kvalue => obj_value o
  end.

(** A well-typed condition as a run-time object. *)
Definition obj_of (c : Condition) : CondObj :=
  mkCondObj (Some (field c)) (Some (operator c)) (Some (value c)).

(** ** Arrays of conditions *)

(** What a position of an array holds: nothing (a hole), [undefined], or a
    condition object. *)
Inductive Elem :=
| Hole
| Undefined
| Object (o : CondObj).

(** An array: its elements at the indices [0 .. length-1], and the own
    properties whose key is an integer that is not an array index (such a
    property is what [a[-1] = x] and [a[4294967295] = x] create). *)
Record JsArray := mkArray {
  elems : list Elem;
  props : list (Z * CondObj)
}.

(** The integers that are array indices: 0 up to 2^32 - 2.  An array of
    the run time has at most 2^32 - 1 elements, so every position inside
    an array is an array index. *)
Definition is_array_index (i : Z) : bool := (0 <=? i) && (i <? 4294967295).

(** Whether the integer [i] is a position inside the array. *)
Definition inside (a : JsArray) (i : Z) : bool :=
  (0 <=? i) && (Z.to_nat i <? length (elems a))%nat.

(** Reading a position as a value: a hole reads as [undefined]. *)
Definition read (e : Elem) : Elem :=
  match e with Hole => Undefined | _ => e end.

(** [[...a]]: the iterator visits the indices [0 .. length-1], reads each
    (so a hole arrives as [undefined]) and ignores the other properties. *)
Definition spread (a : JsArray) : list Elem := read <$> elems a.

Fixpoint assoc (i : Z) (ps : list (Z * CondObj)) : option CondObj :=
  match ps with
  | [] => None
  | (j, o) :: r => if i =? j then Some o else assoc i r
  end.

(** [a[i]] as an expression, for an integer [i]: the element at a
    position inside the array, [undefined] at an array index past the end,
    and the property of that key, if there is one, at an integer that is
    not an array index. *)
Definition array_get (a : JsArray) (i : Z) : Elem :=
  if inside a i then
    match elems a !! Z.to_nat i with
    | Some e => read e
    | None => Undefined
    end
  else if is_array_index i then Undefined
  else
    match assoc i (props a) with
    | Some o => Object o
    | None => Undefined
    end.

(** [a[i] = o], for an integer [i].  At a position inside the array the
    element is replaced; at an array index past the end the array grows to
    length [i + 1] and the positions in between are holes; at any other
    integer (a negative one, or one from 2^32 - 1 on) the assignment
    creates or overwrites an ordinary property and no element changes. *)
Definition array_set (a : JsArray) (i : Z) (o : CondObj) : JsArray :=
  let n := Z.to_nat i in
  if inside a i
  then mkArray (<[n := Object o]> (elems a)) (props a)
  else if is_array_index i
  then mkArray (elems a ++ replicate (n - length (elems a)) Hole ++ [Object o])
               (props a)
  else mkArray (elems a) ((i, o) :: props a).

(** [{ ...x }] on the value read from an array: [undefined] spreads to the
    empty object. *)
Definition obj_spread (e : Elem) : CondObj :=
  match e with
  | Object o => o
  | Hole | Undefined => empty_obj
  end.

(** [a.filter((_, i) => keep(i))]: the callback runs on the positions that
    are present, in ascending order, and the result is a fresh dense array
    of the elements it accepted. *)
Fixpoint filter_from (keep : nat -> bool) (k : nat) (l : list Elem) : list Elem :=
  match l with
  | [] => []
  | Hole :: r => filter_from keep (S k) r
  | e :: r => if keep k then e :: filter_from keep (S k) r
              else filter_from keep (S k) r
  end.

Definition array_filter (keep : nat -> bool) (a : JsArray) : JsArray :=
  mkArray (filter_from keep 0 (elems a)) [].

(** A well-typed [Condition[]] as a run-time array: dense, complete
    objects, no extra property. *)
Definition typed (cs : list Condition) : list Elem :=
  (fun c => Object (obj_of c)) <$> cs.

Definition conditions_of (cs : list Condition) : JsArray :=
  mkArray (typed cs) [].

(** ** The rule editor: [app/(slides)/rules-config/page.tsx] *)

(** [interface FormData] *)
Record FormData := mkFormData {
  name : string;
  description : string;
  priority : string;
  status : string;
  conditions : JsArray;
  matchLogic : string
}.

(** The object literal [ruleData] has the keys of [FormData] with the same
    types: the payload sent to the rules API is of the same shape. *)
Abbreviation RulePayload := FormData.

(** [{ ...formData, conditions: newConditions }] *)
Definition with_conditions (formData : FormData) (newConditions : JsArray) : FormData :=
  mkFormData (name formData) (description formData) (priority formData)
             (status formData) newConditions (matchLogic formData).

(** The argument of [useState<FormData>]. *)
Definition initialFormData : FormData :=
  mkFormData "" "" "" "inactive" (mkArray [] []) "all".

(** The two entries of [defaultConditions]. *)
Definition amount_over : Condition := mkCondition "amount" "greater_than" "10000".
Definition after_hours : Condition := mkCondition "time" "outside" "9:00-17:00".

Definition defaultConditions : list Condition := [amount_over; after_hours].

(** [updateCondition]: copy the array, overwrite position [index] with a
    copy of its object in which [field] is [value], store the copy.
    [index] ranges over the integers: the rows of the editor pass their
    position, and the numbers that are not integers are outside the
    model. *)
Definition updateCondition (index : Z) (field : ConditionKey) (value : string)
    (formData : FormData) : FormData :=
  let newConditions := mkArray (spread (conditions formData)) [] in
  let newConditions :=
    array_set newConditions index
      (obj_set field value (obj_spread (array_get newConditions index))) in
  with_conditions formData newConditions.

(** [removeCondition]: keep the positions [i] with [i !== index]. *)
Definition removeCondition (index : Z) (formData : FormData) : FormData :=
  let newConditions :=
    array_filter (fun i => negb (Z.of_nat i =? index)) (conditions formData) in
  with_conditions formData newConditions.

(** [addCondition]: the spread of the old array followed by one new
    object. *)
Definition addCondition (formData : FormData) : FormData :=
  with_conditions formData
    (mkArray (spread (conditions formData)
              ++ [Object (obj_of (mkCondition "amount" "greater_than" ""))]) []).

(** The two pieces of React state of the page. *)
Record PageState := mkPage {
  selectedRule : option string;
  formData : FormData
}.

(** The object [ruleData] built when the Create/Update button is clicked:
    [s.charAt(0).toUpperCase() + s.slice(1)] on priority and status, the
    other four properties as they are in the form. *)
Definition capitalize (s : string) : string :=
  String.append (JsString.toUpperCase (JsString.charAt 0 s)) (JsString.slice 1 s).

Definition ruleData (formData : FormData) : RulePayload :=
  mkFormData (name formData) (description formData)
             (capitalize (priority formData)) (capitalize (status formData))
             (conditions formData) (matchLogic formData).

Inductive Method := POST | PUT.

(** One call of [fetch(url, { method, headers, body: JSON.stringify(body) })] *)
Record FetchCall := mkFetch {
  url : string;
  method : Method;
  body : RulePayload
}.

(** The callback registered with [.then] on the promise of the call: the
    one of the update branch or the one of the create branch. *)
Inductive Continuation := ThenUpdate | ThenCreate.

(** [if (selectedRule)]: [null] and the empty string are falsy. *)
Definition selected (st : PageState) : option string :=
  match selectedRule st with
  | Some id => if JsString.truthy id then Some id else None
  | None => None
  end.

(** The click handler of the Create/Update button.  It has no other
    statement than the construction of [ruleData] and the [if]: every click
    performs exactly one [fetch]. *)
Definition onSubmitClick (st : PageState) : FetchCall * Continuation :=
  let ruleData := ruleData (formData st) in
  match selected st with
  | Some id => (mkFetch (String.append "/api/rules/" id) PUT ruleData, ThenUpdate)
  | None => (mkFetch "/api/rules" POST ruleData, ThenCreate)
  end.

(** An HTTP response; [response.ok] is true for the status codes 200..299. *)
Record Response := mkResponse { statusCode : Z }.

Definition ok (response : Response) : bool :=
  (200 <=? statusCode response) && (statusCode response <=? 299).

(** The query keys passed to [queryClient.invalidateQueries]. *)
Definition QueryKey := list string.

(** The [.then] callbacks, run on the state the page has when the response
    arrives; they return the new state and the invalidated query keys. *)
Definition onResponse (k : Continuation) (response : Response) (st : PageState)
    : PageState * list QueryKey :=
  if ok response then
    match k with
    | ThenUpdate => (mkPage None (formData st), [["rules"]])
    | ThenCreate =>
        (mkPage (selectedRule st)
           (mkFormData "" "" "" "inactive" (conditions_of defaultConditions) "all"),
         [["rules"]])
    end
  else (st, []).

(** ** The pagination control: [components/ui/Pagination.tsx] *)

(** A rendered [<Button disabled={..} onClick={() => onPageChange(p)}>]:
    [target] is the page its handler passes to [onPageChange]. *)
Record Button := mkButton {
  label : string;
  disabled : bool;
  target : Z
}.

Record PaginationView := mkPagination {
  previous : Button;
  next : Button
}.

(** Page numbers are whole numbers, modelled as integers; [currentPage - 1]
    and [currentPage + 1] are the run time's results for the whole numbers
    up to 2^53 - 1, the range in which its arithmetic is exact. *)
Definition Pagination (currentPage totalPages : Z) : PaginationView :=
  mkPagination
    (mkButton "Previous" (currentPage =? 1) (currentPage - 1))
    (mkButton "Next" (currentPage =? totalPages) (currentPage + 1)).

(** A click on a button: a disabled button dispatches no click event, an
    enabled one runs its handler, which calls [onPageChange] once. *)
Definition click (b : Button) : option Z :=
  if disabled b then None else Some (target b).

(** The calls of [onPageChange] a user can produce with one click on the
    rendered control. *)
Definition reachable_calls (v : PaginationView) : list Z :=
  omap click [previous v; next v].

(** ** The rule editor, continued: the other handlers of the page *)

(** The inline [onChange] / [onValueChange] handlers of the five scalar
    inputs: [setFormData({ ...formData, key: v })]. *)
Definition setName (v : string) (formData : FormData) : FormData :=
  mkFormData v (description formData) (priority formData) (status formData)
             (conditions formData) (matchLogic formData).

Definition setDescription (v : string) (formData : FormData) : FormData :=
  mkFormData (name formData) v (priority formData) (status formData)
             (conditions formData) (matchLogic formData).

Definition setPriority (v : string) (formData : FormData) : FormData :=
  mkFormData (name formData) (description formData) v (status formData)
             (conditions formData) (matchLogic formData).

Definition setStatus (v : string) (formData : FormData) : FormData :=
  mkFormData (name formData) (description formData) (priority formData) v
             (conditions formData) (matchLogic formData).

Definition setMatchLogic (v : string) (formData : FormData) : FormData :=
  mkFormData (name formData) (description formData) (priority formData)
             (status formData) (conditions formData) v.

(** The rows of the condition builder.  [formData.conditions.map(
    (condition, index) => ...)] calls its callback on the positions that
    are present, in ascending order; the callback reads [condition.field],
    which throws on [undefined] ([None]: the render fails).  Each row
    carries its index into its three inputs and its remove button. *)
Fixpoint rows_from (k : nat) (l : list Elem) : option (list nat) :=
  match l with
  | [] => Some []
  | Hole :: r => rows_from (S k) r
  | Undefined :: _ => None
  | Object _ :: r => cons k <$> rows_from (S k) r
  end.

Definition rows (formData : FormData) : option (list nat) :=
  rows_from 0 (elems (conditions formData)).

Definition has_row (index : nat) (formData : FormData) : bool :=
  match rows formData with
  | Some l => bool_decide (index ∈ l)
  | None => false
  end.

(** What a user can do to the form in the editor tab. *)
Inductive FormEvent :=
| ChangeName (v : string)
| ChangeDescription (v : string)
| ChangePriority (v : string)
| ChangeStatus (v : string)
| ChangeMatchLogic (v : string)
| ChangeRow (index : nat) (field : ConditionKey) (v : string)
| RemoveRow (index : nat)
| AddRow.

(** The handler an event runs; [None] when the control of the event is not
    on the page (no row of that index). *)
Definition handle (e : FormEvent) (formData : FormData) : option FormData :=
  match e with
  | ChangeName v => Some (setName v formData)
  | ChangeDescription v => Some (setDescription v formData)
  | ChangePriority v => Some (setPriority v formData)
  | ChangeStatus v => Some (setStatus v formData)
  | ChangeMatchLogic v => Some (setMatchLogic v formData)
  | ChangeRow index field v =>
      if has_row index formData
      then Some (updateCondition (Z.of_nat index) field v formData) else None
  | RemoveRow index =>
      if has_row index formData
      then Some (removeCondition (Z.of_nat index) formData) else None
  | AddRow => Some (addCondition formData)
  end.

(** A sequence of events, each handled on the form the previous one left. *)
Fixpoint run (es : list FormEvent) (formData : FormData) : option FormData :=
  match es with
  | [] => Some formData
  | e :: r =>
      match handle e formData with
      | Some formData' => run r formData'
      | None => None
      end
  end.

Definition is_add (e : FormEvent) : bool :=
  match e with AddRow => true | _ => false end.

Definition is_remove (e : FormEvent) : bool :=
  match e with RemoveRow _ => true | _ => false end.

(** The Edit button of a row of the rules table, and the Cancel button of
    the editor. *)
Definition onEditClick (id : string) (st : PageState) : PageState :=
  mkPage (Some id) (formData st).

Definition onCancelClick (st : PageState) : PageState :=
  mkPage None (formData st).

(** The title of the editor card and the text of the Create/Update
    button: both test [selectedRule] for truthiness. *)
Definition editorTitle (st : PageState) : string :=
  match selected st with
  | Some id => String.append "Edit Rule: " id
  | None => "Create New Rule"
  end.

Definition submitLabel (st : PageState) : string :=
  match selected st with
  | Some _ => "Update Rule"
  | None => "Create Rule"
  end.

(** The well-typed bodies [res.json()] can deliver to the Reset handler:
    an object in which each of the five scalar keys the handler reads is a
    string or is missing ([null] included), and [conditions] is an array
    or is missing.  The other bodies are outside this type and outside the
    statements made with it: on [null], or on a priority or status that is
    a number, boolean, array or object, the callback throws and stores
    nothing; a truthy name, description or matchLogic that is not a string
    is stored as it is. *)
Record RuleJson := mkRuleJson {
  json_name : option string;
  json_description : option string;
  json_priority : option string;
  json_status : option string;
  json_conditions : option JsArray;
  json_matchLogic : option string
}.

(** [x || d] on a string or [undefined]: the empty string is falsy too. *)
Definition or_string (x : option string) (d : string) : string :=
  match x with
  | Some s => if JsString.truthy s then s else d
  | None => d
  end.

(** [x || d] on an array or [undefined]: every array is truthy. *)
Definition or_array (x : option JsArray) (d : JsArray) : JsArray :=
  match x with
  | Some a => a
  | None => d
  end.

(** The form the Reset handler stores when the rule arrives. *)
Definition resetForm (ruleData : RuleJson) : FormData :=
  mkFormData
    (or_string (json_name ruleData) "")
    (or_string (json_description ruleData) "")
    (or_string (JsString.toLowerCase <$> json_priority ruleData) "medium")
    (or_string (JsString.toLowerCase <$> json_status ruleData) "inactive")
    (or_array (json_conditions ruleData) (conditions_of defaultConditions))
    (or_string (json_matchLogic ruleData) "all").

(** The click on Reset: with a rule selected it only starts a GET (the
    url is returned), without one it stores the blank form at once. *)
Definition onResetClick (st : PageState) : PageState * option string :=
  match selected st with
  | Some id => (st, Some (String.append "/api/rules/" id))
  | None =>
      (mkPage (selectedRule st)
         (mkFormData "" "" "" "inactive" (conditions_of defaultConditions) "all"),
       None)
  end.

(** The two [.then] callbacks of the GET: the body is parsed and stored,
    whatever the status of the response. *)
Definition onResetResponse (ruleData : RuleJson) (st : PageState) : PageState :=
  mkPage (selectedRule st) (resetForm ruleData).

(** The object a server delivers that stores a payload and returns it as
    it was sent: every key present. *)
Definition json_of (payload : RulePayload) : RuleJson :=
  mkRuleJson (Some (name payload)) (Some (description payload))
             (Some (priority payload)) (Some (status payload))
             (Some (conditions payload)) (Some (matchLogic payload)).

(** ** The dashboard widgets: [components/dashboard/*.tsx]

    [SummaryCards], [DimensionalAnalysis], [EvaluationMetrics] and
    [TimeSeriesAnalysis] share one body: a query, a ref that caches the
    data of an earlier render, and three ways to render. *)

Module Widget.
Section Widget.

(** The type of the data of the query: [SummaryData], [DimensionalData],
    [EvaluationData] or [TimeSeriesData], objects all four. *)
Variable Data : Type.

(** The part of the result of [useQuery] the widget reads. *)
Record QueryResult := mkQuery {
  data : option Data;
  isFetching : bool;
  isLoading : bool;
  isError : bool
}.

Inductive View :=
| Skeleton
| ErrorNotice
| Content (shown : option Data).

(** Truthiness of an object or [undefined]. *)
Definition truthy (x : option Data) : bool :=
  match x with Some _ => true | None => false end.

(** One run of the function component after the first: [prevData] is
    [prevDataRef.current] as the previous render left it.  The result is
    the ref after the render and what is returned. *)
Definition render (prevData : option Data) (queryResult : QueryResult)
    : option Data * View :=
  let prevData :=
    if negb (isFetching queryResult) && truthy (data queryResult)
    then data queryResult else prevData in
  let shown :=
    match data queryResult with
    | Some d => Some d
    | None => prevData
    end in
  if isLoading queryResult && negb (truthy shown) then (prevData, Skeleton)
  else if isError queryResult then (prevData, ErrorNotice)
  else (prevData, Content shown).

(** A sequence of renders, the ref carried from one to the next. *)
Fixpoint rerender (prevData : option Data) (qs : list QueryResult)
    : option Data * list View :=
  match qs with
  | [] => (prevData, [])
  | q :: r =>
      let (prevData', v) := render prevData q in
      let (final, vs) := rerender prevData' r in
      (final, v :: vs)
  end.

(** The first render creates the ref with [useRef(queryResult.data)]. *)
Definition mount (q : QueryResult) (qs : list QueryResult) : option Data * list View :=
  rerender (data q) (q :: qs).

(** The data of a render that has data and is not fetching. *)
Definition settled (q : QueryResult) : option Data :=
  if isFetching q then None else data q.

End Widget.

Arguments Skeleton {Data}.
Arguments ErrorNotice {Data}.
Arguments Content {Data} shown.
Arguments mkQuery {Data} data isFetching isLoading isError.

End Widget.

(** ** The filter bar of the dashboard: [Filters] and its parent *)

Module Filters.
Section Filters.

(** JavaScript [Date] objects; the handlers only store and copy them. *)
Variable Date : Type.

Record FiltersData := mkFilters {
  startDate : option Date;
  endDate : option Date;
  payerId : string;
  payeeId : string;
  searchQuery : string
}.

(** [filters] is the state of the dashboard page, which passes its setter
    to the bar; [localFilters] is the state of the bar. *)
Record State := mkState {
  filters : FiltersData;
  localFilters : FiltersData
}.

(** [useState<FiltersData>(filters)] *)
Definition mount (filters : FiltersData) : State := mkState filters filters.

(** The controls of the bar.  [Clear] carries the two dates its handler
    computes from the clock: one month ago, and now. *)
Inductive Event :=
| SelectStart (date : option Date)
| SelectEnd (date : option Date)
| ChangeSearch (v : string)
| ChangePayer (v : string)
| ChangePayee (v : string)
| Apply
| Clear (monthAgo now : Date).

Definition handle (e : Event) (st : State) : State :=
  let l := localFilters st in
  match e with
  | SelectStart date =>
      mkState (filters st)
        (mkFilters date (endDate l) (payerId l) (payeeId l) (searchQuery l))
  | SelectEnd date =>
      mkState (filters st)
        (mkFilters (startDate l) date (payerId l) (payeeId l) (searchQuery l))
  | ChangeSearch v =>
      mkState (filters st)
        (mkFilters (startDate l) (endDate l) (payerId l) (payeeId l) v)
  | ChangePayer v =>
      mkState (filters st)
        (mkFilters (startDate l) (endDate l) v (payeeId l) (searchQuery l))
  | ChangePayee v =>
      mkState (filters st)
        (mkFilters (startDate l) (endDate l) (payerId l) v (searchQuery l))
  | Apply => mkState l l
  | Clear monthAgo now =>
      let cleared := mkFilters (Some monthAgo) (Some now) "all" "all" "" in
      mkState cleared cleared
  end.

Definition run (es : list Event) (st : State) : State :=
  foldl (fun st e => handle e st) st es.

Definition is_edit (e : Event) : bool :=
  match e with
  | Apply | Clear _ _ => false
  | _ => true
  end.

End Filters.

Arguments mkFilters {Date} startDate endDate payerId payeeId searchQuery.
Arguments mkState {Date} filters localFilters.
Arguments Apply {Date}.
Arguments ChangeSearch {Date} v.
Arguments ChangePayer {Date} v.
Arguments ChangePayee {Date} v.

End Filters.

(** ** The login page: [app/page.tsx] *)

Module Login.

(** The values of the two registered inputs. *)
Record Credentials := mkCredentials {
  email : string;
  password : string
}.

(** The body of the request: a [FormData] with two appended entries. *)
Definition loginBody (data : Credentials) : list (string * string) :=
  [("username", email data); ("password", password data)].

Inductive Effect :=
| Log (response : Response)
| Alert (message : string)
| Push (path : string).

(** [loading] is the state of the page; [inflight] counts the requests
    whose promise is pending. *)
Record State := mkState {
  loading : bool;
  inflight : nat
}.

Definition initial : State := mkState false 0.

(** How a pending [fetch] ends: with a response, or rejected (no
    connection). *)
Inductive Outcome :=
| Resolved (response : Response)
| Rejected.

Inductive Event :=
| Submit (data : Credentials)
| Settle (outcome : Outcome).

(** [onSubmit] up to its [await]: the loading flag is raised and the
    request sent.  The submit button is [disabled={loading}], and a form
    whose submit button is disabled is not submitted: [None]. *)
Definition submit (data : Credentials) (st : State)
    : option (State * list (string * string)) :=
  if loading st then None
  else Some (mkState true (S (inflight st)), loginBody data).

(** [onSubmit] after its [await].  On a response: log, lower the flag,
    alert, and go to the dashboard when the response is ok.  On a
    rejection the [await] throws and nothing after it runs. *)
Definition settle (outcome : Outcome) (st : State) : option (State * list Effect) :=
  match inflight st with
  | O => None
  | S n =>
      match outcome with
      | Resolved response =>
          Some (mkState false n,
                Log response ::
                (if ok response then [Alert "Logged in"; Push "/dashboard"]
                 else [Alert "Login failed"]))
      | Rejected => Some (mkState (loading st) n, [])
      end
  end.

Definition step (e : Event) (st : State) : option (State * list Effect) :=
  match e with
  | Submit data =>
      match submit data st with
      | Some (st', _) => Some (st', [])
      | None => None
      end
  | Settle outcome => settle outcome st
  end.

(** A sequence of events; the effects are collected in order. *)
Fixpoint run (es : list Event) (st : State) : option (State * list Effect) :=
  match es with
  | [] => Some (st, [])
  | e :: r =>
      match step e st with
      | Some (st', fx) =>
          match run r st' with
          | Some (st'', fx') => Some (st'', fx ++ fx')
          | None => None
          end
      | None => None
      end
  end.

Definition is_push (f : Effect) : bool :=
  match f with Push _ => true | _ => false end.

Definition is_ok_response (e : Event) : bool :=
  match e with
  | Settle (Resolved response) => ok response
  | _ => false
  end.

End Login.

(** The invariant of the login page: no request is pending unless the
    loading flag is up, and at most one is. *)
Definition login_inv (st : Login.State) : Prop :=
  (Login.inflight st <= 1)%nat
  /\ (Login.inflight st = 1%nat -> Login.loading st = true).

(** * Properties *)

(** ** Helper lemmas on the array model *)

Section ArrayFacts.

Implicit Types (cs : list Condition) (l : list Elem) (c : Condition).

Lemma elems_conditions_of cs : elems (conditions_of cs) = typed cs.
Proof. reflexivity. Qed.

Lemma read_typed cs : read <$> typed cs = typed cs.
Proof.
  unfold typed. induction cs as [|c cs IH]; [reflexivity|].
  cbn. f_equal. exact IH.
Qed.

Lemma spread_conditions_of cs : spread (conditions_of cs) = typed cs.
Proof. unfold spread. rewrite elems_conditions_of. apply read_typed. Qed.

Lemma typed_length cs : length (typed cs) = length cs.
Proof. unfold typed. apply length_fmap. Qed.

Lemma typed_lookup cs (j : nat) :
  typed cs !! j = (fun c => Object (obj_of c)) <$> (cs !! j).
Proof. unfold typed. apply list_lookup_fmap. Qed.

Lemma typed_app cs1 cs2 : typed (cs1 ++ cs2) = typed cs1 ++ typed cs2.
Proof. unfold typed. apply fmap_app. Qed.

Lemma typed_insert cs (j : nat) c :
  <[j := Object (obj_of c)]> (typed cs) = typed (<[j := c]> cs).
Proof.
  unfold typed. symmetry.
  apply (list_fmap_insert (fun c => Object (obj_of c))).
Qed.

Lemma obj_of_inj c1 c2 : obj_of c1 = obj_of c2 -> c1 = c2.
Proof.
  destruct c1, c2. unfold obj_of. cbn. intros H.
  inversion H. reflexivity.
Qed.

Lemma typed_inj cs1 cs2 : typed cs1 = typed cs2 -> cs1 = cs2.
Proof.
  revert cs2. induction cs1 as [|c cs1 IH]; intros [|c' cs2] H;
    try discriminate; [reflexivity|].
  cbn in H. injection H as Hf Ho Hv Ht.
  f_equal; [destruct c, c'; cbn in *; congruence | apply IH; exact Ht].
Qed.

Lemma obj_set_obj_of k v c : obj_set k v (obj_of c) = obj_of (Condition_set k v c).
Proof. destruct k; reflexivity. Qed.

(** The filter of [removeCondition] on a dense array, started at
    position [k]: it drops the element whose position is [index], if
    there is one. *)
Lemma filter_from_typed (index : Z) cs (k : nat) :
  filter_from (fun i => negb (Z.of_nat i =? index)) k (typed cs)
  = typed (if (Z.of_nat k <=? index)
           then delete (Z.to_nat (index - Z.of_nat k)) cs
           else cs).
Proof.
  revert k. induction cs as [|c cs IH]; intros k.
  - cbn. by destruct (Z.of_nat k <=? index).
  - change (typed (c :: cs)) with (Object (obj_of c) :: typed cs).
    cbn [filter_from]. rewrite (IH (S k)).
    destruct (Z.eqb_spec (Z.of_nat k) index) as [Heq|Hne]; cbn [negb].
    + subst index. rewrite Z.leb_refl, Z.sub_diag.
      destruct (Z.leb_spec (Z.of_nat (S k)) (Z.of_nat k)); [lia|reflexivity].
    + destruct (Z.leb_spec (Z.of_nat k) index) as [Hle|Hgt].
      * destruct (Z.leb_spec (Z.of_nat (S k)) index) as [_|?]; [|lia].
        replace (Z.to_nat (index - Z.of_nat k))
          with (S (Z.to_nat (index - Z.of_nat (S k)))) by lia.
        reflexivity.
      * destruct (Z.leb_spec (Z.of_nat (S k)) index) as [?|_]; [lia|].
        reflexivity.
Qed.

End ArrayFacts.

(** ** The condition handlers on a well-typed form *)

Section Handlers.

Variables n d p s m : string.
Variable cs : list Condition.

(** A form with arbitrary scalar fields around a conditions array. *)
Local Abbreviation form a := (mkFormData n d p s a m).

Lemma delete_past_end {A} (l : list A) (i : nat) :
  (length l <= i)%nat -> delete i l = l.
Proof.
  revert i. induction l as [|x l IH]; intros i Hi; [by destruct i|].
  destruct i as [|i]; cbn in Hi; [lia|].
  cbn. f_equal. apply IH. lia.
Qed.

(** What the handlers compute, as equations on lists. *)
Lemma updateCondition_in_range (index : Z) (key : ConditionKey) (v : string) c :
  0 <= index -> cs !! Z.to_nat index = Some c ->
  updateCondition index key v (form (conditions_of cs))
  = form (conditions_of (<[Z.to_nat index := Condition_set key v c]> cs)).
Proof.
  intros H0 Hc. unfold updateCondition, with_conditions.
  cbn [name description priority status conditions matchLogic].
  f_equal. rewrite spread_conditions_of.
  unfold array_get, array_set, inside. cbn [elems props].
  destruct (Z.leb_spec 0 index) as [_|?]; [|lia].
  rewrite typed_lookup, Hc, typed_length.
  apply lookup_lt_Some in Hc.
  destruct (Nat.ltb_spec (Z.to_nat index) (length cs)) as [_|?]; [|lia].
  cbn [andb fmap option_fmap option_map read obj_spread].
  rewrite obj_set_obj_of.
  unfold conditions_of. f_equal. apply typed_insert.
Qed.

Lemma updateCondition_past_end (index : Z) (key : ConditionKey) (v : string) :
  Z.of_nat (length cs) <= index -> index < 4294967295 ->
  updateCondition index key v (form (conditions_of cs))
  = form (mkArray (typed cs
                   ++ replicate (Z.to_nat index - length cs) Hole
                   ++ [Object (obj_set key v empty_obj)]) []).
Proof.
  intros Hge Hlt. unfold updateCondition, with_conditions.
  cbn [name description priority status conditions matchLogic].
  f_equal. rewrite spread_conditions_of.
  unfold array_get, array_set, inside, is_array_index. cbn [elems props].
  destruct (Z.leb_spec 0 index) as [_|?]; [|lia].
  destruct (Z.ltb_spec index 4294967295) as [_|?]; [|lia].
  rewrite typed_length.
  destruct (Nat.ltb_spec (Z.to_nat index) (length cs)) as [?|_]; [lia|].
  reflexivity.
Qed.

Lemma updateCondition_not_index (index : Z) (key : ConditionKey) (v : string) :
  Z.of_nat (length cs) <= index -> 4294967295 <= index ->
  updateCondition index key v (form (conditions_of cs))
  = form (mkArray (typed cs) [(index, obj_set key v empty_obj)]).
Proof.
  intros Hge Hbig. unfold updateCondition, with_conditions.
  cbn [name description priority status conditions matchLogic].
  f_equal. rewrite spread_conditions_of.
  unfold array_get, array_set, inside, is_array_index. cbn [elems props].
  destruct (Z.leb_spec 0 index) as [_|?]; [|lia].
  destruct (Z.ltb_spec index 4294967295) as [?|_]; [lia|].
  rewrite typed_length.
  destruct (Nat.ltb_spec (Z.to_nat index) (length cs)) as [?|_]; [lia|].
  reflexivity.
Qed.

Lemma updateCondition_negative (index : Z) (key : ConditionKey) (v : string) :
  index < 0 ->
  updateCondition index key v (form (conditions_of cs))
  = form (mkArray (typed cs) [(index, obj_set key v empty_obj)]).
Proof.
  intros Hneg. unfold updateCondition, with_conditions.
  cbn [name description priority status conditions matchLogic].
  f_equal. rewrite spread_conditions_of.
  unfold array_get, array_set, inside, is_array_index. cbn [elems props].
  destruct (Z.leb_spec 0 index) as [?|_]; [lia|]. reflexivity.
Qed.


Lemma removeCondition_eq (index : Z) :
  removeCondition index (form (conditions_of cs))
  = form (conditions_of (if 0 <=? index then delete (Z.to_nat index) cs else cs)).
Proof.
  unfold removeCondition, with_conditions, array_filter.
  cbn [name description priority status conditions matchLogic].
  f_equal. unfold conditions_of. f_equal. cbn [elems].
  rewrite (filter_from_typed index cs 0).
  change (Z.of_nat 0) with 0. by rewrite Z.sub_0_r.
Qed.

Lemma addCondition_eq :
  addCondition (form (conditions_of cs))
  = form (conditions_of (cs ++ [mkCondition "amount" "greater_than" ""])).
Proof.
  unfold addCondition, with_conditions.
  cbn [name description priority status conditions matchLogic].
  f_equal. rewrite spread_conditions_of.
  unfold conditions_of. f_equal. by rewrite typed_app.
Qed.

End Handlers.

(** ** Claims on the condition handlers *)

(** Claim C6.  On a form whose conditions are a well-typed list and for an
    index that is a position of it, [updateCondition] yields a form with
    the same scalar fields and a well-typed list of the same length, in
    which every other position holds what it held, and the condition at
    the index has the new string in the named attribute and its old
    strings in the two other attributes. *)
Theorem updateCondition_frame (n d p s m : string) (cs : list Condition)
    (index : Z) (key : ConditionKey) (v : string) :
  0 <= index < Z.of_nat (length cs) ->
  exists cs' : list Condition,
    updateCondition index key v (mkFormData n d p s (conditions_of cs) m)
      = mkFormData n d p s (conditions_of cs') m
    /\ length cs' = length cs
    /\ (forall j : nat, Z.of_nat j <> index -> cs' !! j = cs !! j)
    /\ exists c c' : Condition,
         cs !! Z.to_nat index = Some c
         /\ cs' !! Z.to_nat index = Some c'
         /\ Condition_get key c' = v
         /\ forall k : ConditionKey, k <> key -> Condition_get k c' = Condition_get k c.
Proof.
  intros [Hlo Hhi].
  destruct (lookup_lt_is_Some_2 cs (Z.to_nat index)) as [c Hc]; [lia|].
  exists (<[Z.to_nat index := Condition_set key v c]> cs).
  split; [by apply updateCondition_in_range|].
  split; [apply length_insert|].
  split.
  - intros j Hj. apply list_lookup_insert_ne. lia.
  - exists c, (Condition_set key v c).
    split; [exact Hc|].
    split; [apply list_lookup_insert_eq; lia|].
    split; [by destruct key|].
    intros k Hk. destruct k, key; try reflexivity; congruence.
Qed.

Lemma updateCondition_frame_witness :
  exists cs' : list Condition,
    updateCondition 1 Kvalue "8:00-18:00"
      (mkFormData "After Hours" "" "medium" "active"
         (conditions_of [amount_over; after_hours]) "all")
      = mkFormData "After Hours" "" "medium" "active" (conditions_of cs') "all"
    /\ length cs' = 2%nat
    /\ (forall j : nat, Z.of_nat j <> 1 -> cs' !! j = [amount_over; after_hours] !! j)
    /\ exists c c' : Condition,
         [amount_over; after_hours] !! 1%nat = Some c
         /\ cs' !! 1%nat = Some c'
         /\ Condition_get Kvalue c' = "8:00-18:00"
         /\ forall k : ConditionKey, k <> Kvalue -> Condition_get k c' = Condition_get k c.
Proof.
  apply (updateCondition_frame "After Hours" "" "medium" "active" "all"
           [amount_over; after_hours] 1 Kvalue "8:00-18:00").
  cbn. lia.
Defined.

(** Claim C2, as stated, fails: on the one-element list and the index 1,
    which is not a position of it, [updateCondition] returns normally with
    a list of two elements, the second an object that has the key [value]
    only. *)
Lemma updateCondition_out_of_range_counterexample :
  ~ (0 <= 1 < Z.of_nat (length [amount_over]))
  /\ conditions (updateCondition 1 Kvalue "x"
                   (mkFormData "r" "" "high" "active" (conditions_of [amount_over]) "all"))
     = mkArray [Object (obj_of amount_over);
                Object (mkCondObj None None (Some "x"))] []
  /\ conditions (updateCondition 1 Kvalue "x"
                   (mkFormData "r" "" "high" "active" (conditions_of [amount_over]) "all"))
     <> conditions_of [amount_over].
Proof.
  split; [cbn; lia|].
  split; [reflexivity|].
  vm_compute. discriminate.
Qed.

(** Claim C2, amended.  [updateCondition] has no range check and raises
    no error.  For an integer index past the end that is an array index
    (below 2^32 - 1) it grows the list to length [index + 1]: the old
    conditions stay where they were, the positions between the old end and
    the index are holes, and the index holds an object whose only key is
    the named attribute.  For every other integer that is not a position
    of the list (a negative one, or one from 2^32 - 1 on) no element
    changes, the length stays, and that object becomes an ordinary
    property of the new array. *)
Theorem updateCondition_out_of_range (n d p s m : string) (cs : list Condition)
    (index : Z) (key : ConditionKey) (v : string) :
  ~ (0 <= index < Z.of_nat (length cs)) ->
  updateCondition index key v (mkFormData n d p s (conditions_of cs) m)
  = mkFormData n d p s
      (if (0 <=? index) && (index <? 4294967295)
       then mkArray (typed cs
                     ++ replicate (Z.to_nat index - length cs) Hole
                     ++ [Object (obj_set key v empty_obj)]) []
       else mkArray (typed cs) [(index, obj_set key v empty_obj)])
      m.
Proof.
  intros Hout. destruct (Z.leb_spec 0 index) as [Hpos|Hneg];
    [|by apply updateCondition_negative].
  destruct (Z.ltb_spec index 4294967295) as [Hlt|Hbig]; cbn [andb].
  - apply updateCondition_past_end; lia.
  - apply updateCondition_not_index; lia.
Qed.

Lemma updateCondition_out_of_range_witness :
  updateCondition 3 Koperator "within"
    (mkFormData "r" "" "low" "inactive" (conditions_of [amount_over]) "any")
  = mkFormData "r" "" "low" "inactive"
      (mkArray [Object (obj_of amount_over); Hole; Hole;
                Object (mkCondObj None (Some "within") None)] [])
      "any"
  /\ updateCondition (-1) Koperator "within"
       (mkFormData "r" "" "low" "inactive" (conditions_of [amount_over]) "any")
     = mkFormData "r" "" "low" "inactive"
         (mkArray [Object (obj_of amount_over)]
                  [(-1, mkCondObj None (Some "within") None)])
         "any"
  /\ updateCondition 4294967295 Koperator "within"
       (mkFormData "r" "" "low" "inactive" (conditions_of [amount_over]) "any")
     = mkFormData "r" "" "low" "inactive"
         (mkArray [Object (obj_of amount_over)]
                  [(4294967295, mkCondObj None (Some "within") None)])
         "any".
Proof.
  split; [|split].
  - apply (updateCondition_out_of_range "r" "" "low" "inactive" "any"
             [amount_over] 3 Koperator "within").
    cbn. lia.
  - apply (updateCondition_out_of_range "r" "" "low" "inactive" "any"
             [amount_over] (-1) Koperator "within").
    cbn. lia.
  - apply (updateCondition_out_of_range "r" "" "low" "inactive" "any"
             [amount_over] 4294967295 Koperator "within").
    cbn. lia.
Defined.

(** The last array index and the first integer that is none. *)
Example updateCondition_at_the_bound :
  length (elems (conditions (updateCondition 4294967295 Kvalue "x"
                   (mkFormData "r" "" "high" "active"
                      (conditions_of [amount_over]) "all")))) = 1%nat
  /\ props (conditions (updateCondition 4294967295 Kvalue "x"
                (mkFormData "r" "" "high" "active"
                   (conditions_of [amount_over]) "all")))
     = [(4294967295, mkCondObj None None (Some "x"))].
Proof. split; reflexivity. Qed.

(** Past the typed arrays: the holes an out-of-range update leaves are
    skipped by the filter of [removeCondition], also when it removes
    nothing. *)
Example removeCondition_after_growth :
  conditions
    (removeCondition 5
       (updateCondition 2 Kvalue "x"
          (mkFormData "r" "" "high" "active" (conditions_of [amount_over]) "all")))
  = mkArray [Object (obj_of amount_over); Object (mkCondObj None None (Some "x"))] [].
Proof. reflexivity. Qed.

(** Claim C7.  On a form whose conditions are a well-typed list,
    [removeCondition] yields a form with the same scalar fields and a
    well-typed list.  For an index that is a position of the list, the new
    list is one shorter, holds before the index what the old list held at
    the same position and from the index on what the old list held one
    position later.  For any other index the new list is the old one. *)
Theorem removeCondition_spec (n d p s m : string) (cs : list Condition) (index : Z) :
  exists cs' : list Condition,
    removeCondition index (mkFormData n d p s (conditions_of cs) m)
      = mkFormData n d p s (conditions_of cs') m
    /\ (0 <= index < Z.of_nat (length cs) ->
          S (length cs') = length cs
          /\ (forall j : nat, (j < Z.to_nat index)%nat -> cs' !! j = cs !! j)
          /\ (forall j : nat, (Z.to_nat index <= j)%nat -> cs' !! j = cs !! S j))
    /\ (~ (0 <= index < Z.of_nat (length cs)) -> cs' = cs).
Proof.
  exists (if 0 <=? index then delete (Z.to_nat index) cs else cs).
  split; [apply removeCondition_eq|].
  destruct (Z.leb_spec 0 index) as [Hpos|Hneg].
  - split.
    + intros [_ Hhi]. split; [|split].
      * rewrite length_delete by (apply lookup_lt_is_Some_2; lia). lia.
      * intros j Hj. by apply list_lookup_delete_lt.
      * intros j Hj. by apply list_lookup_delete_ge.
    + intros Hout. apply delete_past_end. lia.
  - split; [lia|reflexivity].
Qed.

Lemma removeCondition_spec_witness :
  removeCondition 0
    (mkFormData "r" "" "high" "active" (conditions_of [amount_over; after_hours]) "all")
  = mkFormData "r" "" "high" "active" (conditions_of [after_hours]) "all"
  /\ removeCondition 2
       (mkFormData "r" "" "high" "active" (conditions_of [amount_over; after_hours]) "all")
     = mkFormData "r" "" "high" "active" (conditions_of [amount_over; after_hours]) "all".
Proof.
  split.
  - destruct (removeCondition_spec "r" "" "high" "active" "all"
                [amount_over; after_hours] 0) as (cs' & Heq & Hin & _).
    rewrite Heq.
    destruct Hin as (Hlen & _ & Hshift); [cbn; lia|].
    destruct cs' as [|c [|c2 cs']]; try discriminate Hlen.
    specialize (Hshift 0%nat ltac:(cbn; lia)). cbn in Hshift.
    by injection Hshift as ->.
  - destruct (removeCondition_spec "r" "" "high" "active" "all"
                [amount_over; after_hours] 2) as (cs' & Heq & _ & Hout).
    rewrite Heq, Hout; [reflexivity | cbn; lia].
Defined.

(** Claim C8.  On a form whose conditions are a well-typed list,
    [addCondition] yields a form with the same scalar fields and a
    well-typed list that is one longer, starts with the old list and ends
    with the condition amount / greater_than / empty value.  The handler
    inspects neither the form nor the new condition: the equation holds for
    every form, valid or not. *)
Theorem addCondition_appends (n d p s m : string) (cs : list Condition) :
  exists cs' : list Condition,
    addCondition (mkFormData n d p s (conditions_of cs) m)
      = mkFormData n d p s (conditions_of cs') m
    /\ cs' = cs ++ [mkCondition "amount" "greater_than" ""]
    /\ length cs' = S (length cs)
    /\ take (length cs) cs' = cs
    /\ cs' !! length cs = Some (mkCondition "amount" "greater_than" "").
Proof.
  exists (cs ++ [mkCondition "amount" "greater_than" ""]).
  split; [apply addCondition_eq|].
  split; [reflexivity|].
  split; [rewrite length_app; cbn; lia|].
  split; [apply take_app_length|].
  apply list_lookup_middle. reflexivity.
Qed.

(** [addCondition] on the seeded default conditions, and on a list that
    already ends with an unfinished condition. *)
Example addCondition_on_defaults :
  addCondition (mkFormData "" "" "" "inactive" (conditions_of defaultConditions) "all")
  = mkFormData "" "" "" "inactive"
      (conditions_of [amount_over; after_hours; mkCondition "amount" "greater_than" ""])
      "all".
Proof. reflexivity. Qed.

Example addCondition_twice :
  conditions (addCondition (addCondition initialFormData))
  = conditions_of [mkCondition "amount" "greater_than" "";
                   mkCondition "amount" "greater_than" ""].
Proof. reflexivity. Qed.

(** ** Claims on the Create/Update button *)

Section Submit.

Implicit Types (st : PageState) (fd : FormData).

Lemma capitalize_empty : capitalize "" = "".
Proof. reflexivity. Qed.

(** The request of a click, branch by branch. *)
Lemma onSubmitClick_create st :
  selected st = None ->
  onSubmitClick st = (mkFetch "/api/rules" POST (ruleData (formData st)), ThenCreate).
Proof. intros H. unfold onSubmitClick. by rewrite H. Qed.

Lemma onSubmitClick_update st id :
  selected st = Some id ->
  onSubmitClick st
  = (mkFetch (String.append "/api/rules/" id) PUT (ruleData (formData st)), ThenUpdate).
Proof. intros H. unfold onSubmitClick. by rewrite H. Qed.

Lemma onSubmitClick_body st : body (onSubmitClick st).1 = ruleData (formData st).
Proof. unfold onSubmitClick. by destruct (selected st). Qed.

End Submit.

(** Claim C1, as stated, fails: the form the page starts with has an empty
    name and an unset priority, and a click on the button sends it; a form
    with a named, prioritised rule whose only condition has an empty value
    is sent as well. *)
Lemma normalize_validation_counterexample :
  name initialFormData = "" /\ priority initialFormData = ""
  /\ onSubmitClick (mkPage None initialFormData)
     = (mkFetch "/api/rules" POST
          (mkFormData "" "" "" "Inactive" (mkArray [] []) "all"),
        ThenCreate)
  /\ onSubmitClick
       (mkPage None
          (addCondition (mkFormData "r" "" "high" "active" (mkArray [] []) "all")))
     = (mkFetch "/api/rules" POST
          (mkFormData "r" "" "High" "Active"
             (conditions_of [mkCondition "amount" "greater_than" ""]) "all"),
        ThenCreate).
Proof. repeat split; reflexivity. Qed.

(** Claim C1, amended.  The handler validates nothing: for every state of
    the page a click performs one [fetch], a PUT on the selected rule or a
    POST when none is selected, and its body has the name, description,
    conditions and match logic of the form and the priority and status of
    the form with their first character in upper case. *)
Theorem onSubmitClick_always_submits (st : PageState) :
  exists (u : string) (k : Continuation),
    onSubmitClick st
    = (mkFetch u (match selected st with Some _ => PUT | None => POST end)
         (mkFormData (name (formData st)) (description (formData st))
            (capitalize (priority (formData st))) (capitalize (status (formData st)))
            (conditions (formData st)) (matchLogic (formData st))),
       k)
    /\ u = match selected st with
           | Some id => String.append "/api/rules/" id
           | None => "/api/rules"
           end.
Proof.
  unfold onSubmitClick. destruct (selected st) as [id|]; eauto.
Qed.

(** Claim C3, as stated, fails: the payload of the form the page starts
    with has the empty string as priority. *)
Lemma payload_priority_counterexample :
  priority (body (onSubmitClick (mkPage None initialFormData)).1) = ""
  /\ ~ (priority (body (onSubmitClick (mkPage None initialFormData)).1) = "High"
        \/ priority (body (onSubmitClick (mkPage None initialFormData)).1) = "Medium"
        \/ priority (body (onSubmitClick (mkPage None initialFormData)).1) = "Low").
Proof.
  split; [reflexivity|].
  cbn. intros [H|[H|H]]; discriminate H.
Qed.

(** Claim C3, amended.  When the priority of the form is one of the three
    values its select offers, or the status one of the two its select
    offers, the payload of a click, POST or PUT, has the capitalized value
    of it. *)
Theorem payload_capitalized (st : PageState) :
  let payload := body (onSubmitClick st).1 in
  (priority (formData st) = "high" -> priority payload = "High")
  /\ (priority (formData st) = "medium" -> priority payload = "Medium")
  /\ (priority (formData st) = "low" -> priority payload = "Low")
  /\ (status (formData st) = "active" -> status payload = "Active")
  /\ (status (formData st) = "inactive" -> status payload = "Inactive").
Proof.
  intros payload. subst payload. rewrite onSubmitClick_body.
  unfold ruleData. cbn [priority status].
  repeat split; intros ->; reflexivity.
Qed.

Lemma payload_capitalized_witness :
  let st := mkPage (Some "R002")
              (mkFormData "Unusual Location" "" "medium" "inactive"
                 (conditions_of defaultConditions) "any") in
  method (onSubmitClick st).1 = PUT
  /\ priority (body (onSubmitClick st).1) = "Medium"
  /\ status (body (onSubmitClick st).1) = "Inactive".
Proof.
  intros st.
  destruct (payload_capitalized st) as (_ & Hmedium & _ & _ & Hinactive).
  split; [reflexivity|].
  split; [apply Hmedium | apply Hinactive]; reflexivity.
Defined.

(** Claim C4, as stated, fails: the form the page starts with has no
    condition, and the body of the POST a click sends has none either; the
    same holds for a complete rule whose only condition was removed. *)
Lemma empty_conditions_submitted_counterexample :
  (onSubmitClick (mkPage None initialFormData)).1
  = mkFetch "/api/rules" POST (mkFormData "" "" "" "Inactive" (mkArray [] []) "all")
  /\ elems (conditions (body (onSubmitClick (mkPage None initialFormData)).1)) = []
  /\ elems (conditions (body (onSubmitClick
        (mkPage (Some "R001")
           (removeCondition 0
              (mkFormData "High Amount Transaction" "" "high" "active"
                 (conditions_of [amount_over]) "all")))).1)) = [].
Proof. repeat split; reflexivity. Qed.

(** Claim C4, amended.  The body of the request a click sends carries the
    conditions of the form as they are; the handler has no guard on them,
    so the list sent is empty exactly when the list of the form is. *)
Theorem payload_conditions_unchanged (st : PageState) :
  conditions (body (onSubmitClick st).1) = conditions (formData st).
Proof. rewrite onSubmitClick_body. reflexivity. Qed.

(** Claim C5.  Whatever the click that sent the request (create or update)
    and whatever the state of the page when the response arrives, a
    response whose status is not in 200..299 leaves [formData] and
    [selectedRule] as they are and invalidates no query; conversely a
    callback that changes the state has seen an ok response. *)
Theorem onResponse_failure_unchanged (clicked st : PageState) (response : Response) :
  (~ (200 <= statusCode response <= 299) ->
     onResponse (onSubmitClick clicked).2 response st = (st, []))
  /\ ((onResponse (onSubmitClick clicked).2 response st).1 <> st ->
        ok response = true).
Proof.
  unfold onResponse, ok. split.
  - intros Hfail.
    destruct (Z.leb_spec 200 (statusCode response)) as [Hlo|Hlo];
      destruct (Z.leb_spec (statusCode response) 299) as [Hhi|Hhi];
      cbn [andb]; try reflexivity.
    exfalso. apply Hfail. lia.
  - destruct (_ && _); [reflexivity|].
    intros Hne. exfalso. apply Hne. reflexivity.
Qed.

Lemma onResponse_failure_unchanged_witness :
  let draft := mkFormData "High Amount" "" "high" "active"
                 (conditions_of [amount_over]) "all" in
  onResponse (onSubmitClick (mkPage None draft)).2 (mkResponse 500) (mkPage None draft)
  = (mkPage None draft, [])
  /\ ok (mkResponse 201) = true.
Proof.
  intros draft. split.
  - apply (proj1 (onResponse_failure_unchanged
                    (mkPage None draft) (mkPage None draft) (mkResponse 500))).
    cbn. lia.
  - apply (proj2 (onResponse_failure_unchanged
                    (mkPage None draft) (mkPage None draft) (mkResponse 201))).
    vm_compute. discriminate.
Defined.

(** The two callbacks on an ok response, for contrast: the update clears
    the selection, the create resets the form to the default conditions. *)
Example onResponse_ok_update :
  onResponse ThenUpdate (mkResponse 200) (mkPage (Some "R001") initialFormData)
  = (mkPage None initialFormData, [["rules"]]).
Proof. reflexivity. Qed.

Example onResponse_ok_create :
  onResponse ThenCreate (mkResponse 201)
    (mkPage None (mkFormData "r" "d" "low" "active" (conditions_of [after_hours]) "any"))
  = (mkPage None
       (mkFormData "" "" "" "inactive" (conditions_of [amount_over; after_hours]) "all"),
     [["rules"]]).
Proof. reflexivity. Qed.

(** Claim C9.  For every form whose priority is "high" and whose status is
    "active", [ruleData] has priority "High", status "Active", and the
    name, description, conditions and match logic of the form. *)
Theorem ruleData_high_active (fd : FormData) :
  priority fd = "high" -> status fd = "active" ->
  ruleData fd
  = mkFormData (name fd) (description fd) "High" "Active"
      (conditions fd) (matchLogic fd).
Proof.
  intros Hp Hs. unfold ruleData. rewrite Hp, Hs. reflexivity.
Qed.

(** The scenario of the claim: the draft "High Amount". *)
Lemma ruleData_high_active_witness :
  ruleData (mkFormData "High Amount" "" "high" "active"
              (conditions_of [mkCondition "amount" "greater_than" "10000"]) "all")
  = mkFormData "High Amount" "" "High" "Active"
      (conditions_of [mkCondition "amount" "greater_than" "10000"]) "all".
Proof.
  apply (ruleData_high_active
           (mkFormData "High Amount" "" "high" "active"
              (conditions_of [mkCondition "amount" "greater_than" "10000"]) "all"));
    reflexivity.
Defined.

(** ** Claim on the pagination control *)

(** Claim C10.  For a current page between 1 and the number of pages,
    Previous is disabled exactly on page 1 and Next exactly on the last
    page, and every call of [onPageChange] a click can produce passes the
    page before or the page after the current one, which lies between 1
    and the number of pages. *)
Theorem Pagination_in_range (currentPage totalPages : Z) :
  1 <= currentPage <= totalPages ->
  (disabled (previous (Pagination currentPage totalPages)) = true <-> currentPage = 1)
  /\ (disabled (next (Pagination currentPage totalPages)) = true
      <-> currentPage = totalPages)
  /\ forall page : Z,
       page ∈ reachable_calls (Pagination currentPage totalPages) ->
       (page = currentPage - 1 \/ page = currentPage + 1)
       /\ 1 <= page <= totalPages.
Proof.
  intros Hrange. unfold Pagination, reachable_calls, click.
  cbn [previous next disabled target omap list_omap].
  split; [apply Z.eqb_eq|]. split; [apply Z.eqb_eq|].
  intros page.
  destruct (Z.eqb_spec currentPage 1) as [H1|H1];
    destruct (Z.eqb_spec currentPage totalPages) as [Ht|Ht];
    cbn [omap list_omap]; intros Hin;
    repeat match goal with
      | H : _ ∈ [] |- _ => by apply not_elem_of_nil in H
      | H : _ ∈ _ :: _ |- _ => apply elem_of_cons in H; destruct H as [->|H]
      end; (split; [auto|lia]).
Qed.

Lemma Pagination_in_range_witness :
  reachable_calls (Pagination 1 3) = [2]
  /\ forall page : Z, page ∈ reachable_calls (Pagination 1 3) -> 1 <= page <= 3.
Proof.
  split; [reflexivity|].
  intros page Hin.
  apply (Pagination_in_range 1 3 ltac:(lia)). exact Hin.
Defined.

(** * Further properties of the rule editor *)

(** ** Upper and lower case *)

Section CaseFacts.

Implicit Types (s : string) (c : ascii).

Lemma lower_upper_char c :
  JsString.lower_char (JsString.upper_char c) = JsString.lower_char c.
Proof.
  destruct c as [b0 b1 b2 b3 b4 b5 b6 b7].
  destruct b0, b1, b2, b3, b4, b5, b6, b7; reflexivity.
Qed.

Lemma toLowerCase_toUpperCase s :
  JsString.toLowerCase (JsString.toUpperCase s) = JsString.toLowerCase s.
Proof.
  induction s as [|c r IH]; [reflexivity|].
  cbn [JsString.toUpperCase JsString.toLowerCase].
  by rewrite lower_upper_char, IH.
Qed.

Lemma toLowerCase_append s1 s2 :
  JsString.toLowerCase (String.append s1 s2)
  = String.append (JsString.toLowerCase s1) (JsString.toLowerCase s2).
Proof.
  induction s1 as [|c r IH]; [reflexivity|].
  cbn [String.append JsString.toLowerCase]. by rewrite IH.
Qed.

Lemma charAt_slice s :
  String.append (JsString.charAt 0 s) (JsString.slice 1 s) = s.
Proof. destruct s as [|c [|c' r]]; reflexivity. Qed.

Lemma toLowerCase_capitalize s :
  JsString.toLowerCase (capitalize s) = JsString.toLowerCase s.
Proof.
  unfold capitalize.
  rewrite toLowerCase_append, toLowerCase_toUpperCase, <- toLowerCase_append.
  by rewrite charAt_slice.
Qed.

Lemma truthy_toLowerCase s :
  JsString.truthy (JsString.toLowerCase s) = JsString.truthy s.
Proof. by destruct s. Qed.

Lemma or_string_truthy x d :
  JsString.truthy d = true -> JsString.truthy (or_string x d) = true.
Proof.
  intros Hd. unfold or_string. destruct x as [s|]; [|exact Hd].
  destruct (JsString.truthy s) eqn:Hs; [exact Hs | exact Hd].
Qed.

Lemma or_string_some s d : s <> "" -> or_string (Some s) d = s.
Proof. intros Hs. unfold or_string. by destruct s. Qed.

End CaseFacts.

(** ** Reset *)

(** Saving a rule and resetting the editor to what was saved gives the
    draft back: for a draft whose priority and status are non-empty ASCII
    strings in lower case and whose match logic is non-empty, the Reset
    callback, run on the body of the request the Create/Update click sent,
    stores the draft itself.  (Outside ASCII the run time's case mappings
    do not round-trip: a sharp s is sent as SS and comes back as ss.) *)
Theorem reset_after_submit_round_trip (sel : option string) (n d p s m : string)
    (cs : list Condition) :
  JsString.is_ascii p = true -> JsString.toLowerCase p = p -> p <> "" ->
  JsString.is_ascii s = true -> JsString.toLowerCase s = s -> s <> "" ->
  m <> "" ->
  let st := mkPage sel (mkFormData n d p s (conditions_of cs) m) in
  onResetResponse (json_of (body (onSubmitClick st).1)) st = st.
Proof.
  intros _ Hp Hp0 _ Hs Hs0 Hm st. subst st.
  rewrite onSubmitClick_body.
  unfold onResetResponse, resetForm, json_of, ruleData.
  cbn [selectedRule formData name description priority status conditions
       matchLogic json_name json_description json_priority json_status
       json_conditions json_matchLogic fmap option_fmap option_map or_array].
  rewrite !toLowerCase_capitalize, Hp, Hs.
  rewrite (or_string_some p), (or_string_some s), (or_string_some m) by assumption.
  f_equal. f_equal.
  - unfold or_string. by destruct n.
  - unfold or_string. by destruct d.
Qed.

Lemma reset_after_submit_round_trip_witness :
  let st := mkPage (Some "R001")
              (mkFormData "High Amount" "Flag transactions over 10,000"
                 "high" "active" (conditions_of [amount_over]) "any") in
  body (onSubmitClick st).1
  = mkFormData "High Amount" "Flag transactions over 10,000"
      "High" "Active" (conditions_of [amount_over]) "any"
  /\ onResetResponse (json_of (body (onSubmitClick st).1)) st = st.
Proof.
  split; [reflexivity|].
  apply (reset_after_submit_round_trip (Some "R001") "High Amount"
           "Flag transactions over 10,000" "high" "active" "any" [amount_over]);
    (reflexivity || discriminate).
Defined.

(** The round trip needs the hypotheses: the unset priority of the initial
    form comes back as "medium". *)
Example reset_after_submit_initial :
  formData (onResetResponse
              (json_of (body (onSubmitClick (mkPage (Some "R001") initialFormData)).1))
              (mkPage (Some "R001") initialFormData))
  = mkFormData "" "" "medium" "inactive" (mkArray [] []) "all".
Proof. reflexivity. Qed.

(** For every well-typed body (each scalar key a string or missing,
    [conditions] an array or missing), the form the Reset callback stores
    has a non-empty priority, a non-empty status and a non-empty match
    logic: a missing or empty one is replaced by "medium", "inactive" and
    "all". *)
Theorem reset_scalars_never_empty (ruleData : RuleJson) (st : PageState) :
  JsString.truthy (priority (formData (onResetResponse ruleData st))) = true
  /\ JsString.truthy (status (formData (onResetResponse ruleData st))) = true
  /\ JsString.truthy (matchLogic (formData (onResetResponse ruleData st))) = true.
Proof.
  unfold onResetResponse, resetForm.
  cbn [formData priority status matchLogic].
  repeat split; apply or_string_truthy; reflexivity.
Qed.

(** The Reset callback does not look at the status of the response: a
    body in which the five scalar keys are missing or empty and
    [conditions] is missing (the body of an error response) replaces the
    draft, whatever it was, by the default form, and keeps the
    selection. *)
Theorem reset_without_rule_data (ruleData : RuleJson) (st : PageState) :
  or_string (json_name ruleData) "" = "" ->
  or_string (json_description ruleData) "" = "" ->
  or_string (json_priority ruleData) "" = "" ->
  or_string (json_status ruleData) "" = "" ->
  or_string (json_matchLogic ruleData) "" = "" ->
  json_conditions ruleData = None ->
  onResetResponse ruleData st
  = mkPage (selectedRule st)
      (mkFormData "" "" "medium" "inactive" (conditions_of defaultConditions) "all").
Proof.
  destruct ruleData as [jn jd jp js jc jm].
  cbn [json_name json_description json_priority json_status json_conditions
       json_matchLogic].
  intros Hn Hd Hp Hs Hm ->.
  unfold onResetResponse, resetForm.
  cbn [json_name json_description json_priority json_status json_conditions
       json_matchLogic or_array].
  rewrite Hn, Hd. f_equal. f_equal.
  - destruct jp as [[|c r]|]; [reflexivity | discriminate Hp | reflexivity].
  - destruct js as [[|c r]|]; [reflexivity | discriminate Hs | reflexivity].
  - destruct jm as [[|c r]|]; [reflexivity | discriminate Hm | reflexivity].
Qed.

Lemma reset_without_rule_data_witness :
  onResetResponse (mkRuleJson None None None (Some "") None None)
    (mkPage (Some "R009")
       (mkFormData "My draft" "" "high" "active" (conditions_of [amount_over]) "any"))
  = mkPage (Some "R009")
      (mkFormData "" "" "medium" "inactive" (conditions_of defaultConditions) "all").
Proof.
  apply (reset_without_rule_data (mkRuleJson None None None (Some "") None None));
    reflexivity.
Defined.

(** ** Selection, labels and requests *)

(** What the editor shows and what the button sends always agree.  Either
    a non-empty rule id is selected: the title names it, the button reads
    "Update Rule" and the click sends a PUT to the url of that rule.  Or
    nothing is selected ([null], or the empty string): the title is "Create
    New Rule", the button reads "Create Rule" and the click sends a POST
    to the collection. *)
Theorem label_agrees_with_request (st : PageState) :
  (exists id : string,
     selectedRule st = Some id /\ JsString.truthy id = true
     /\ editorTitle st = String.append "Edit Rule: " id
     /\ submitLabel st = "Update Rule"
     /\ method (onSubmitClick st).1 = PUT
     /\ url (onSubmitClick st).1 = String.append "/api/rules/" id)
  \/ ((selectedRule st = None \/ selectedRule st = Some "")
      /\ editorTitle st = "Create New Rule"
      /\ submitLabel st = "Create Rule"
      /\ method (onSubmitClick st).1 = POST
      /\ url (onSubmitClick st).1 = "/api/rules").
Proof.
  unfold editorTitle, submitLabel, onSubmitClick, selected.
  destruct (selectedRule st) as [[|c r]|]; cbn.
  - right. repeat split; auto.
  - left. exists (String c r). repeat split; auto.
  - right. repeat split; auto.
Qed.

(** Edit selects a rule and leaves the draft alone: the Update click that
    follows sends, to the url of the rule, the payload of the draft that
    was in the editor before Edit was clicked. *)
Theorem edit_then_submit (id : string) (st : PageState) :
  id <> "" ->
  formData (onEditClick id st) = formData st
  /\ onSubmitClick (onEditClick id st)
     = (mkFetch (String.append "/api/rules/" id) PUT (ruleData (formData st)),
        ThenUpdate).
Proof.
  intros Hid. split; [reflexivity|].
  rewrite (onSubmitClick_update (onEditClick id st) id); [reflexivity|].
  unfold selected, onEditClick. cbn [selectedRule]. by destruct id.
Qed.

Lemma edit_then_submit_witness :
  onSubmitClick (onEditClick "R003" (mkPage None initialFormData))
  = (mkFetch "/api/rules/R003" PUT
       (mkFormData "" "" "" "Inactive" (mkArray [] []) "all"),
     ThenUpdate).
Proof.
  apply (edit_then_submit "R003" (mkPage None initialFormData)).
  discriminate.
Defined.

(** A successful update clears the selection and keeps the draft, so the
    same button, clicked again, creates a second rule: it sends a POST
    with the payload of the draft that was just saved. *)
Theorem update_then_click_creates (st : PageState) (response : Response) :
  200 <= statusCode response <= 299 ->
  onSubmitClick (onResponse ThenUpdate response st).1
  = (mkFetch "/api/rules" POST (ruleData (formData st)), ThenCreate).
Proof.
  intros [Hlo Hhi]. unfold onResponse, ok.
  destruct (Z.leb_spec 200 (statusCode response)) as [_|?]; [|lia].
  destruct (Z.leb_spec (statusCode response) 299) as [_|?]; [|lia].
  reflexivity.
Qed.

Lemma update_then_click_creates_witness :
  let st := mkPage (Some "R001")
              (mkFormData "High Amount" "" "high" "active"
                 (conditions_of [amount_over]) "all") in
  (onSubmitClick st).1
  = mkFetch "/api/rules/R001" PUT
      (mkFormData "High Amount" "" "High" "Active" (conditions_of [amount_over]) "all")
  /\ onSubmitClick (onResponse (onSubmitClick st).2 (mkResponse 200) st).1
     = (mkFetch "/api/rules" POST
          (mkFormData "High Amount" "" "High" "Active"
             (conditions_of [amount_over]) "all"),
        ThenCreate).
Proof.
  intros st. split; [reflexivity|].
  apply (update_then_click_creates st (mkResponse 200)). cbn. lia.
Defined.

(** ** The condition builder *)

Section Builder.

Implicit Types (cs : list Condition) (fd : FormData) (e : FormEvent).

Lemma rows_from_typed cs (k : nat) : rows_from k (typed cs) = Some (seq k (length cs)).
Proof.
  revert k. induction cs as [|c cs IH]; intros k; [reflexivity|].
  change (typed (c :: cs)) with (Object (obj_of c) :: typed cs).
  cbn [rows_from length seq]. by rewrite IH.
Qed.

Lemma has_row_typed (n d p s m : string) cs (i : nat) :
  has_row i (mkFormData n d p s (conditions_of cs) m) = true <-> (i < length cs)%nat.
Proof.
  unfold has_row, rows. cbn [conditions conditions_of elems].
  rewrite rows_from_typed, bool_decide_eq_true, elem_of_seq. lia.
Qed.

Lemma delete_insert_same {A} (l : list A) (i : nat) (x : A) :
  delete i (<[i := x]> l) = delete i l.
Proof.
  rewrite !delete_take_drop.
  rewrite take_insert_ge by lia. rewrite drop_insert_lt by lia. reflexivity.
Qed.

Lemma filter_from_app (keep : nat -> bool) (l1 l2 : list Elem) (k : nat) :
  filter_from keep k (l1 ++ l2)
  = filter_from keep k l1 ++ filter_from keep (k + length l1) l2.
Proof.
  revert k. induction l1 as [|x l1 IH]; intros k.
  - cbn. by rewrite Nat.add_0_r.
  - cbn [app filter_from length]. rewrite (IH (S k)).
    replace (S k + length l1)%nat with (k + S (length l1))%nat by lia.
    destruct x; [reflexivity| |]; by destruct (keep k).
Qed.

Lemma filter_from_holes (keep : nat -> bool) (n k : nat) :
  filter_from keep k (replicate n Hole) = [].
Proof. revert k. induction n as [|n IH]; intros k; [reflexivity|]. apply IH. Qed.

(** One event on a well-typed form. *)
Lemma handle_typed e fd fd' cs :
  conditions fd = conditions_of cs ->
  handle e fd = Some fd' ->
  exists cs',
    conditions fd' = conditions_of cs'
    /\ (length cs' + (if is_remove e then 1 else 0)
        = length cs + (if is_add e then 1 else 0))%nat.
Proof.
  destruct fd as [n d p s a m]. cbn [conditions]. intros ->.
  destruct e as [v|v|v|v|v|i k v|i|]; cbn [handle is_add is_remove];
    try (intros [= <-]; exists cs; split; [reflexivity|lia]).
  - destruct (has_row _ _) eqn:Hrow; [|discriminate].
    apply has_row_typed in Hrow. intros [= <-].
    destruct (lookup_lt_is_Some_2 cs i Hrow) as [c Hc].
    rewrite (updateCondition_in_range n d p s m cs (Z.of_nat i) k v c);
      [|lia|by rewrite Nat2Z.id].
    eexists. split; [reflexivity|]. rewrite length_insert. lia.
  - destruct (has_row _ _) eqn:Hrow; [|discriminate].
    apply has_row_typed in Hrow. intros [= <-].
    rewrite removeCondition_eq.
    destruct (Z.leb_spec 0 (Z.of_nat i)) as [_|?]; [|lia].
    eexists. split; [reflexivity|].
    rewrite Nat2Z.id, length_delete by (by apply lookup_lt_is_Some_2). lia.
  - intros [= <-]. rewrite addCondition_eq.
    eexists. split; [reflexivity|]. rewrite length_app. cbn. lia.
Qed.

End Builder.

(** Starting from a form whose conditions are a well-typed list, every
    sequence of edits the editor offers (the five scalar inputs, the three
    inputs and the remove button of an existing row, Add Condition) leaves
    a form whose conditions are a well-typed list again: no hole, no
    [undefined], no object with a missing key.  It has one row per
    condition, and its length is the old length plus the number of Add
    Condition clicks minus the number of removals. *)
Theorem run_keeps_conditions_typed (es : list FormEvent) (fd fd' : FormData)
    (cs : list Condition) :
  conditions fd = conditions_of cs ->
  run es fd = Some fd' ->
  exists cs' : list Condition,
    conditions fd' = conditions_of cs'
    /\ rows fd' = Some (seq 0 (length cs'))
    /\ (length cs' + length (List.filter is_remove es)
        = length cs + length (List.filter is_add es))%nat.
Proof.
  revert fd cs. induction es as [|e es IH]; intros fd cs Hcs Hrun.
  - injection Hrun as <-. exists cs. split; [exact Hcs|].
    split; [|cbn; lia].
    unfold rows. rewrite Hcs. apply rows_from_typed.
  - cbn [run] in Hrun. destruct (handle e fd) as [fd1|] eqn:He; [|discriminate].
    destruct (handle_typed e fd fd1 cs Hcs He) as (cs1 & Hcs1 & Hlen1).
    destruct (IH fd1 cs1 Hcs1 Hrun) as (cs' & Hcs' & Hrows & Hlen).
    exists cs'. split; [exact Hcs'|]. split; [exact Hrows|].
    cbn [List.filter]. destruct (is_remove e), (is_add e); cbn [length]; lia.
Qed.

Lemma run_keeps_conditions_typed_witness :
  run [AddRow; ChangeRow 0 Kvalue "500"; AddRow; ChangeRow 1 Kfield "channel";
       RemoveRow 0; ChangeName "Channel rule"] initialFormData
  = Some (mkFormData "Channel rule" "" "" "inactive"
            (conditions_of [mkCondition "channel" "greater_than" ""]) "all")
  /\ exists cs' : list Condition,
       conditions_of [mkCondition "channel" "greater_than" ""] = conditions_of cs'
       /\ length cs' = 1%nat.
Proof.
  split; [reflexivity|].
  destruct (run_keeps_conditions_typed
              [AddRow; ChangeRow 0 Kvalue "500"; AddRow; ChangeRow 1 Kfield "channel";
               RemoveRow 0; ChangeName "Channel rule"]
              initialFormData
              (mkFormData "Channel rule" "" "" "inactive"
                 (conditions_of [mkCondition "channel" "greater_than" ""]) "all")
              [] eq_refl eq_refl)
    as (cs' & Hcs' & _ & Hlen).
  exists cs'. split; [exact Hcs'|]. cbn in Hlen. lia.
Defined.

(** An event on a row that is not there has no handler to run. *)
Example no_row_no_event :
  handle (ChangeRow 1 Kvalue "x")
    (mkFormData "" "" "" "inactive" (conditions_of [amount_over]) "all") = None.
Proof. reflexivity. Qed.

(** ** How the condition handlers compose *)

(** Add Condition followed by the removal of the new, last row gives the
    form back. *)
Theorem add_then_remove_last (n d p s m : string) (cs : list Condition) :
  removeCondition (Z.of_nat (length cs))
    (addCondition (mkFormData n d p s (conditions_of cs) m))
  = mkFormData n d p s (conditions_of cs) m.
Proof.
  rewrite addCondition_eq, removeCondition_eq.
  destruct (Z.leb_spec 0 (Z.of_nat (length cs))) as [_|?]; [|lia].
  by rewrite Nat2Z.id, delete_middle, app_nil_r.
Qed.

(** Two updates of the same attribute of the same row: the second one
    wins, as if the first had not happened. *)
Theorem updateCondition_overwrite (n d p s m : string) (cs : list Condition)
    (index : Z) (key : ConditionKey) (v1 v2 : string) :
  0 <= index < Z.of_nat (length cs) ->
  updateCondition index key v2
    (updateCondition index key v1 (mkFormData n d p s (conditions_of cs) m))
  = updateCondition index key v2 (mkFormData n d p s (conditions_of cs) m).
Proof.
  intros [Hlo Hhi].
  destruct (lookup_lt_is_Some_2 cs (Z.to_nat index)) as [c Hc]; [lia|].
  rewrite (updateCondition_in_range n d p s m cs index key v1 c) by assumption.
  rewrite (updateCondition_in_range n d p s m cs index key v2 c) by assumption.
  rewrite (updateCondition_in_range n d p s m _ index key v2 (Condition_set key v1 c));
    [|assumption|apply list_lookup_insert_eq; lia].
  rewrite list_insert_insert_eq. by destruct key.
Qed.

Lemma updateCondition_overwrite_witness :
  updateCondition 0 Kvalue "20000"
    (updateCondition 0 Kvalue "2"
       (mkFormData "r" "" "high" "active" (conditions_of [amount_over]) "all"))
  = mkFormData "r" "" "high" "active"
      (conditions_of [mkCondition "amount" "greater_than" "20000"]) "all".
Proof.
  rewrite (updateCondition_overwrite "r" "" "high" "active" "all" [amount_over]
             0 Kvalue "2" "20000"); [reflexivity|].
  cbn. lia.
Defined.

(** Updates of different rows, or of different attributes of one row, can
    be made in either order. *)
Theorem updateCondition_commute (n d p s m : string) (cs : list Condition)
    (i j : Z) (ki kj : ConditionKey) (vi vj : string) :
  0 <= i < Z.of_nat (length cs) ->
  0 <= j < Z.of_nat (length cs) ->
  i <> j \/ ki <> kj ->
  updateCondition i ki vi
    (updateCondition j kj vj (mkFormData n d p s (conditions_of cs) m))
  = updateCondition j kj vj
      (updateCondition i ki vi (mkFormData n d p s (conditions_of cs) m)).
Proof.
  intros [Hi0 Hi1] [Hj0 Hj1] Hne.
  destruct (lookup_lt_is_Some_2 cs (Z.to_nat i)) as [ci Hci]; [lia|].
  destruct (lookup_lt_is_Some_2 cs (Z.to_nat j)) as [cj Hcj]; [lia|].
  rewrite (updateCondition_in_range n d p s m cs j kj vj cj) by assumption.
  rewrite (updateCondition_in_range n d p s m cs i ki vi ci) by assumption.
  destruct (decide (Z.to_nat i = Z.to_nat j)) as [Heq|Hij].
  - assert (i = j) as -> by lia.
    assert (ci = cj) as -> by congruence.
    destruct Hne as [?|Hk]; [congruence|].
    rewrite (updateCondition_in_range n d p s m _ j ki vi (Condition_set kj vj cj));
      [|assumption|apply list_lookup_insert_eq; lia].
    rewrite (updateCondition_in_range n d p s m _ j kj vj (Condition_set ki vi cj));
      [|assumption|apply list_lookup_insert_eq; lia].
    rewrite !list_insert_insert_eq.
    do 3 f_equal. destruct ki, kj; try reflexivity; congruence.
  - rewrite (updateCondition_in_range n d p s m _ i ki vi ci);
      [|assumption|by rewrite list_lookup_insert_ne].
    rewrite (updateCondition_in_range n d p s m _ j kj vj cj);
      [|assumption|by rewrite list_lookup_insert_ne].
    by rewrite list_insert_insert_ne.
Qed.

Lemma updateCondition_commute_witness :
  updateCondition 1 Koperator "within"
    (updateCondition 1 Kvalue "8:00-18:00"
       (mkFormData "r" "" "low" "active" (conditions_of defaultConditions) "all"))
  = updateCondition 1 Kvalue "8:00-18:00"
      (updateCondition 1 Koperator "within"
         (mkFormData "r" "" "low" "active" (conditions_of defaultConditions) "all")).
Proof.
  apply (updateCondition_commute "r" "" "low" "active" "all" defaultConditions
           1 1 Koperator Kvalue "within" "8:00-18:00");
    [cbn; lia | cbn; lia | right; discriminate].
Defined.

(** Removing the row that was just updated leaves no trace of the update,
    for every integer index: a position of the list, an array index past
    its end (the holes and the partial object the update created are
    filtered out) or an integer that is no array index (the property the
    update created is not copied). *)
Theorem remove_after_update (n d p s m : string) (cs : list Condition)
    (index : Z) (key : ConditionKey) (v : string) :
  removeCondition index
    (updateCondition index key v (mkFormData n d p s (conditions_of cs) m))
  = removeCondition index (mkFormData n d p s (conditions_of cs) m).
Proof.
  destruct (Z.ltb_spec index 0) as [Hneg|Hpos].
  - rewrite updateCondition_negative by assumption. reflexivity.
  - destruct (Z.ltb_spec index (Z.of_nat (length cs))) as [Hin|Hout].
    + destruct (lookup_lt_is_Some_2 cs (Z.to_nat index)) as [c Hc]; [lia|].
      rewrite (updateCondition_in_range n d p s m cs index key v c) by assumption.
      rewrite !removeCondition_eq.
      destruct (Z.leb_spec 0 index) as [_|?]; [|lia].
      by rewrite delete_insert_same.
    + destruct (Z.ltb_spec index 4294967295) as [Hlt|Hbig];
        [|rewrite updateCondition_not_index by assumption; reflexivity].
      rewrite updateCondition_past_end by assumption.
      unfold removeCondition, with_conditions, array_filter.
      cbn [name description priority status conditions matchLogic elems
           conditions_of].
      do 2 f_equal.
      rewrite !filter_from_app, filter_from_holes.
      cbn [filter_from app]. rewrite length_replicate, typed_length.
      replace (Z.of_nat (0 + length cs + (Z.to_nat index - length cs)))
        with index by lia.
      rewrite Z.eqb_refl. cbn [negb]. by rewrite app_nil_r.
Qed.

(** * Further properties of the pagination control *)

(** The range hypothesis of the control is needed.  With the current page
    past the last one (a list that became empty: page 1 of 0) Next is
    enabled and asks for a page past the last one; with the current page
    before the first one Previous is enabled and asks for a page before
    the first one. *)
Theorem Pagination_out_of_range (currentPage totalPages : Z) :
  (totalPages < currentPage ->
     click (next (Pagination currentPage totalPages)) = Some (currentPage + 1)
     /\ totalPages < currentPage + 1)
  /\ (currentPage < 1 ->
        click (previous (Pagination currentPage totalPages)) = Some (currentPage - 1)
        /\ currentPage - 1 < 1).
Proof.
  unfold click, Pagination. cbn [next previous disabled target].
  split; intros H.
  - destruct (Z.eqb_spec currentPage totalPages); [lia|]. split; [reflexivity|lia].
  - destruct (Z.eqb_spec currentPage 1); [lia|]. split; [reflexivity|lia].
Qed.

Lemma Pagination_out_of_range_witness :
  click (next (Pagination 1 0)) = Some 2
  /\ click (previous (Pagination 0 5)) = Some (-1).
Proof.
  split.
  - apply (proj1 (Pagination_out_of_range 1 0)). lia.
  - apply (proj2 (Pagination_out_of_range 0 5)). lia.
Defined.

(** Previous and Next undo each other, for page counts in the range in
    which the arithmetic of the run time is exact (up to 2^53 - 1).  From
    a page after the first, Previous is enabled and, on the control
    rendered for the page it asks for, Next is enabled and asks for the
    page one came from; the same from a page before the last with Next
    first. *)
Theorem Pagination_back_and_forth (currentPage totalPages : Z) :
  totalPages <= 9007199254740991 ->
  (1 < currentPage <= totalPages ->
     exists page : Z,
       click (previous (Pagination currentPage totalPages)) = Some page
       /\ click (next (Pagination page totalPages)) = Some currentPage)
  /\ (1 <= currentPage < totalPages ->
        exists page : Z,
          click (next (Pagination currentPage totalPages)) = Some page
          /\ click (previous (Pagination page totalPages)) = Some currentPage).
Proof.
  intros _. unfold click, Pagination. cbn [next previous disabled target].
  split; intros H.
  - exists (currentPage - 1).
    destruct (Z.eqb_spec currentPage 1); [lia|].
    destruct (Z.eqb_spec (currentPage - 1) totalPages); [lia|].
    split; [reflexivity|]. f_equal. lia.
  - exists (currentPage + 1).
    destruct (Z.eqb_spec currentPage totalPages); [lia|].
    destruct (Z.eqb_spec (currentPage + 1) 1); [lia|].
    split; [reflexivity|]. f_equal. lia.
Qed.

Lemma Pagination_back_and_forth_witness :
  (exists page : Z,
     click (previous (Pagination 3 3)) = Some page
     /\ click (next (Pagination page 3)) = Some 3)
  /\ (exists page : Z,
        click (next (Pagination 1 3)) = Some page
        /\ click (previous (Pagination page 3)) = Some 1).
Proof.
  split.
  - apply (proj1 (Pagination_back_and_forth 3 3 ltac:(lia))). lia.
  - apply (proj2 (Pagination_back_and_forth 1 3 ltac:(lia))). lia.
Defined.

(** * Properties of the dashboard widgets *)

Section WidgetFacts.

Context {Data : Type}.
Implicit Types (prev : option Data) (q : Widget.QueryResult Data)
               (qs : list (Widget.QueryResult Data)).

Lemma render_ref prev q :
  (Widget.render Data prev q).1
  = match Widget.settled Data q with Some d => Some d | None => prev end.
Proof.
  unfold Widget.render, Widget.settled, Widget.truthy.
  destruct (Widget.data Data q) as [d|], (Widget.isFetching Data q),
    (Widget.isLoading Data q), (Widget.isError Data q), prev; reflexivity.
Qed.

Lemma render_with_ref prev q :
  prev <> None ->
  (Widget.render Data prev q).1 <> None
  /\ (Widget.render Data prev q).2 <> Widget.Skeleton.
Proof.
  intros Hprev. destruct prev as [d0|]; [clear Hprev|congruence].
  unfold Widget.render, Widget.truthy.
  destruct (Widget.data Data q) as [d|], (Widget.isFetching Data q),
    (Widget.isLoading Data q), (Widget.isError Data q); cbn; split; congruence.
Qed.

Lemma rerender_cons prev q qs :
  Widget.rerender Data prev (q :: qs)
  = ((Widget.rerender Data (Widget.render Data prev q).1 qs).1,
     (Widget.render Data prev q).2
       :: (Widget.rerender Data (Widget.render Data prev q).1 qs).2).
Proof.
  simpl.
  destruct (Widget.render Data prev q) as [p v]. simpl.
  destruct (Widget.rerender Data p qs). reflexivity.
Qed.

Lemma rerender_with_ref prev qs :
  prev <> None -> Widget.Skeleton ∉ (Widget.rerender Data prev qs).2.
Proof.
  revert prev. induction qs as [|q qs IH]; intros prev Hprev.
  - cbn. apply not_elem_of_nil.
  - rewrite rerender_cons. cbn [snd].
    destruct (render_with_ref prev q Hprev) as [Href Hview].
    apply not_elem_of_cons. split; [congruence|]. by apply IH.
Qed.

End WidgetFacts.

(** Once a widget has data to fall back on, it never shows the skeleton
    again, whatever the query reports later (loading, fetching, error, no
    data).  It has such data when the query of its first render has data,
    and from any render on whose query has data and is not fetching. *)
Theorem widget_no_skeleton_after_data {Data : Type} (prev : option Data)
    (q : Widget.QueryResult Data) (qs : list (Widget.QueryResult Data)) :
  (Widget.data Data q <> None ->
     Widget.Skeleton ∉ (Widget.mount Data q qs).2)
  /\ (Widget.isFetching Data q = false -> Widget.data Data q <> None ->
        Widget.Skeleton ∉ (Widget.rerender Data prev (q :: qs)).2).
Proof.
  split.
  - intros Hdata. unfold Widget.mount. by apply rerender_with_ref.
  - intros Hfetch Hdata. rewrite rerender_cons. cbn [snd].
    assert ((Widget.render Data prev q).1 <> None) as Href.
    { rewrite render_ref. unfold Widget.settled. rewrite Hfetch.
      by destruct (Widget.data Data q). }
    apply not_elem_of_cons. split; [|by apply rerender_with_ref].
    unfold Widget.render, Widget.truthy. rewrite Hfetch.
    destruct (Widget.data Data q); [|congruence].
    cbn. destruct (Widget.isLoading Data q), (Widget.isError Data q); discriminate.
Qed.

Lemma widget_no_skeleton_after_data_witness :
  (Widget.rerender nat None
     [Widget.mkQuery None true true false;
      Widget.mkQuery (Some 42%nat) false false false;
      Widget.mkQuery None true true false;
      Widget.mkQuery None false false true]).2
  = [Widget.Skeleton; Widget.Content (Some 42%nat); Widget.Content (Some 42%nat);
     Widget.ErrorNotice]
  /\ (Widget.Skeleton ∉
       (Widget.rerender nat (None : option nat)
          [Widget.mkQuery (Some 42%nat) false false false;
           Widget.mkQuery None true true false;
           Widget.mkQuery None false false true]).2)
  /\ (Widget.Skeleton ∉
       (Widget.mount nat (Widget.mkQuery (Some 7%nat) true false false)
          [Widget.mkQuery None true true false]).2).
Proof.
  split; [reflexivity|]. split.
  - apply (proj2 (widget_no_skeleton_after_data None
                    (Widget.mkQuery (Some 42%nat) false false false) _));
      [reflexivity | discriminate].
  - apply (proj1 (widget_no_skeleton_after_data None
                    (Widget.mkQuery (Some 7%nat) true false false) _)).
    discriminate.
Defined.

(** What the ref of a mounted widget holds after its first render and any
    number of later ones: the data of the last render whose query had data
    and was not fetching; when there is no such render, the data the query
    had at the first render, fetching or not ([useRef] starts the ref with
    it), which may be none.  The same for the renders after a given one,
    with the ref that render left: there, data that arrives while the
    query is fetching is shown but not stored. *)
Theorem widget_ref_is_last_settled {Data : Type} (prev : option Data)
    (q : Widget.QueryResult Data) (qs : list (Widget.QueryResult Data)) :
  (Widget.mount Data q qs).1
  = match last (omap (Widget.settled Data) (q :: qs)) with
    | Some d => Some d
    | None => Widget.data Data q
    end
  /\ (Widget.rerender Data prev qs).1
     = match last (omap (Widget.settled Data) qs) with
       | Some d => Some d
       | None => prev
       end.
Proof.
  assert (forall (l : list (Widget.QueryResult Data)) (r : option Data),
             (Widget.rerender Data r l).1
             = match last (omap (Widget.settled Data) l) with
               | Some d => Some d
               | None => r
               end) as Hgen.
  { induction l as [|q0 l IH]; intros r; [reflexivity|].
    rewrite rerender_cons. cbn [fst]. rewrite IH, render_ref.
    cbn [omap list_omap].
    destruct (Widget.settled Data q0) as [d|]; [|reflexivity].
    rewrite last_cons. by destruct (last _). }
  split; [|apply Hgen].
  unfold Widget.mount. apply Hgen.
Qed.

(** The first render stores the data of its query even while it is
    fetching; a later render does not. *)
Example widget_mount_caches_first_data :
  Widget.mount nat (Widget.mkQuery (Some 7%nat) true false false)
    [Widget.mkQuery None true true false]
  = (Some 7%nat, [Widget.Content (Some 7%nat); Widget.Content (Some 7%nat)]).
Proof. reflexivity. Qed.

Example widget_fetching_data_not_cached :
  Widget.mount nat (Widget.mkQuery None true true false)
    [Widget.mkQuery (Some 1%nat) true false false;
     Widget.mkQuery None true true false]
  = (None, [Widget.Skeleton; Widget.Content (Some 1%nat); Widget.Skeleton]).
Proof. reflexivity. Qed.

(** * Properties of the filter bar *)

Section FiltersFacts.

Context {Date : Type}.
Implicit Types (st : Filters.State Date) (e : Filters.Event Date)
               (es : list (Filters.Event Date)).

Lemma filters_run_app es1 es2 st :
  Filters.run Date (es1 ++ es2) st = Filters.run Date es2 (Filters.run Date es1 st).
Proof. unfold Filters.run. apply foldl_app. Qed.

Lemma filters_edit_keeps e st :
  Filters.is_edit Date e = true ->
  Filters.filters Date (Filters.handle Date e st) = Filters.filters Date st.
Proof. destruct e; cbn; intros H; (reflexivity || discriminate H). Qed.

Lemma filters_edits_keep es st :
  forallb (Filters.is_edit Date) es = true ->
  Filters.filters Date (Filters.run Date es st) = Filters.filters Date st.
Proof.
  revert st. induction es as [|e es IH]; intros st H; [reflexivity|].
  cbn [forallb] in H. apply andb_prop in H as [He Hes].
  change (Filters.run Date (e :: es) st)
    with (Filters.run Date es (Filters.handle Date e st)).
  rewrite IH by exact Hes. by apply filters_edit_keeps.
Qed.

End FiltersFacts.

(** The filters of the dashboard change only on Apply and Clear.  After
    any sequence of events followed by edits of the bar (dates, search
    text, payer, payee), the dashboard has the filters it had before the
    edits; and when Apply was clicked just before the edits, these are the
    local filters the bar had at the click. *)
Theorem filters_change_only_on_apply {Date : Type}
    (es1 es2 : list (Filters.Event Date)) (st : Filters.State Date) :
  forallb (Filters.is_edit Date) es2 = true ->
  Filters.filters Date (Filters.run Date (es1 ++ es2) st)
    = Filters.filters Date (Filters.run Date es1 st)
  /\ Filters.filters Date (Filters.run Date (es1 ++ Filters.Apply :: es2) st)
     = Filters.localFilters Date (Filters.run Date es1 st).
Proof.
  intros Hedits. split.
  - rewrite filters_run_app. by apply filters_edits_keep.
  - rewrite filters_run_app.
    change (Filters.run Date (Filters.Apply :: es2) (Filters.run Date es1 st))
      with (Filters.run Date es2
              (Filters.handle Date Filters.Apply (Filters.run Date es1 st))).
    rewrite filters_edits_keep by exact Hedits. reflexivity.
Qed.

Lemma filters_change_only_on_apply_witness :
  let st0 := Filters.mount nat (Filters.mkFilters (Some 1%nat) (Some 31%nat) "" "" "") in
  Filters.filters nat
    (Filters.run nat
       ([Filters.ChangePayer "P1234"]
        ++ Filters.Apply :: [Filters.ChangeSearch "TX1"; Filters.SelectEnd nat None])
       st0)
  = Filters.mkFilters (Some 1%nat) (Some 31%nat) "P1234" "" ""
  /\ Filters.localFilters nat
       (Filters.run nat
          ([Filters.ChangePayer "P1234"]
           ++ Filters.Apply :: [Filters.ChangeSearch "TX1"; Filters.SelectEnd nat None])
          st0)
     = Filters.mkFilters (Some 1%nat) None "P1234" "" "TX1".
Proof.
  intros st0. split; [|reflexivity].
  rewrite (proj2 (filters_change_only_on_apply
                    [Filters.ChangePayer "P1234"]
                    [Filters.ChangeSearch "TX1"; Filters.SelectEnd nat None]
                    st0 eq_refl)).
  reflexivity.
Defined.

(** * Properties of the login page *)

Section LoginFacts.

Implicit Types (st : Login.State) (e : Login.Event) (es : list Login.Event)
               (fx : list Login.Effect).

Lemma login_step_inv e st st' fx :
  login_inv st -> Login.step e st = Some (st', fx) -> login_inv st'.
Proof.
  intros [Hle Hload]. destruct st as [l n]. cbn in Hle, Hload.
  destruct e as [data|[response|]]; cbn.
  - destruct l; [discriminate|]. intros [= <- <-].
    assert (n = 0%nat) as -> by (destruct n as [|[|?]]; [reflexivity|by discriminate Hload|lia]).
    split; cbn; [lia|reflexivity].
  - destruct n as [|n]; [discriminate|]. intros [= <- <-].
    split; cbn; lia.
  - destruct n as [|n]; [discriminate|]. intros [= <- <-].
    split; cbn; lia.
Qed.

Lemma login_run_inv es st st' fx :
  login_inv st -> Login.run es st = Some (st', fx) -> login_inv st'.
Proof.
  revert st fx. induction es as [|e es IH]; intros st fx Hinv.
  - intros [= <- <-]. exact Hinv.
  - cbn [Login.run].
    destruct (Login.step e st) as [[st1 fx1]|] eqn:He; [|discriminate].
    destruct (Login.run es st1) as [[st2 fx2]|] eqn:Hr; [|discriminate].
    intros [= <- <-]. eapply IH; [|exact Hr]. eapply login_step_inv; eauto.
Qed.

Lemma login_run_app es1 es2 st st' fx :
  Login.run (es1 ++ es2) st = Some (st', fx) ->
  exists st1 fx1 fx2,
    Login.run es1 st = Some (st1, fx1)
    /\ Login.run es2 st1 = Some (st', fx2)
    /\ fx = fx1 ++ fx2.
Proof.
  revert st fx. induction es1 as [|e es1 IH]; intros st fx.
  - cbn. intros H. exists st, [], fx. by repeat split.
  - cbn [app Login.run].
    destruct (Login.step e st) as [[sa fa]|]; [|discriminate].
    destruct (Login.run (es1 ++ es2) sa) as [[sb fb]|] eqn:Hr; [|discriminate].
    intros [= <- <-].
    destruct (IH sa fb Hr) as (st1 & fx1 & fx2 & H1 & H2 & ->).
    rewrite H1. exists st1, (fa ++ fx1), fx2.
    split; [reflexivity|]. split; [exact H2|]. by rewrite <- app_assoc.
Qed.

Lemma login_inv_initial : login_inv Login.initial.
Proof. split; cbn; [lia|discriminate]. Qed.

End LoginFacts.

(** At most one login request is pending at any time: after every
    sequence of submits and settlements from the freshly loaded page, at
    most one request is in flight, and while one is, a submit is
    refused. *)
Theorem login_one_request_at_a_time (es : list Login.Event) (st : Login.State)
    (fx : list Login.Effect) :
  Login.run es Login.initial = Some (st, fx) ->
  (Login.inflight st <= 1)%nat
  /\ (Login.inflight st = 1%nat ->
        forall data : Login.Credentials, Login.submit data st = None).
Proof.
  intros Hrun.
  destruct (login_run_inv es Login.initial st fx login_inv_initial Hrun)
    as [Hle Hload].
  split; [exact Hle|].
  intros H1 data. unfold Login.submit. by rewrite (Hload H1).
Qed.

Lemma login_one_request_at_a_time_witness :
  Login.run [Login.Submit (Login.mkCredentials "a@b.c" "pw")] Login.initial
  = Some (Login.mkState true 1, [])
  /\ Login.submit (Login.mkCredentials "a@b.c" "pw2") (Login.mkState true 1) = None.
Proof.
  split; [reflexivity|].
  apply (login_one_request_at_a_time
           [Login.Submit (Login.mkCredentials "a@b.c" "pw")]
           (Login.mkState true 1) [] eq_refl);
    reflexivity.
Defined.

(** A rejected request locks the page.  [onSubmit] has no handler for a
    rejected [fetch]: the loading flag stays up, the button stays
    disabled, and no later submit or settlement is possible. *)
Theorem login_stuck_after_rejection (es : list Login.Event) (st : Login.State)
    (fx : list Login.Effect) :
  Login.run (es ++ [Login.Settle Login.Rejected]) Login.initial = Some (st, fx) ->
  Login.loading st = true
  /\ forall e : Login.Event, Login.step e st = None.
Proof.
  intros Hrun.
  destruct (login_run_app _ _ _ _ _ Hrun) as (st1 & fx1 & fx2 & H1 & H2 & _).
  pose proof (login_run_inv es Login.initial st1 fx1 login_inv_initial H1)
    as [Hle Hload].
  destruct st1 as [l n]. cbn in Hle, Hload, H2.
  destruct n as [|[|n]]; [discriminate H2| |lia].
  injection H2 as <-. rewrite (Hload eq_refl). cbn.
  split; [reflexivity|]. intros [data|outcome]; reflexivity.
Qed.

Lemma login_stuck_after_rejection_witness :
  Login.run ([Login.Submit (Login.mkCredentials "a@b.c" "pw")]
             ++ [Login.Settle Login.Rejected]) Login.initial
  = Some (Login.mkState true 0, [])
  /\ Login.step (Login.Submit (Login.mkCredentials "a@b.c" "pw"))
       (Login.mkState true 0) = None.
Proof.
  split; [reflexivity|].
  apply (login_stuck_after_rejection
           [Login.Submit (Login.mkCredentials "a@b.c" "pw")]
           (Login.mkState true 0) [] eq_refl).
Defined.

(** The page goes to the dashboard once for every ok response and never
    otherwise: in the effects of any sequence of events, from any state,
    there are as many [router.push] as there are settlements with an ok
    response. *)
Theorem login_push_iff_ok (es : list Login.Event) (st st' : Login.State)
    (fx : list Login.Effect) :
  Login.run es st = Some (st', fx) ->
  length (List.filter Login.is_push fx)
  = length (List.filter Login.is_ok_response es).
Proof.
  revert st fx. induction es as [|e es IH]; intros st fx.
  - intros [= <- <-]. reflexivity.
  - cbn [Login.run].
    destruct (Login.step e st) as [[st1 fx1]|] eqn:He; [|discriminate].
    destruct (Login.run es st1) as [[st2 fx2]|] eqn:Hr; [|discriminate].
    intros [= <- <-].
    rewrite List.filter_app, length_app, (IH st1 fx2 Hr).
    cbn [List.filter].
    assert (length (List.filter Login.is_push fx1)
            = if Login.is_ok_response e then 1%nat else 0%nat) as ->.
    { destruct e as [data|[response|]]; cbn in He |- *.
      - destruct (Login.submit data st) as [[? ?]|]; [|discriminate].
        by injection He as <- <-.
      - unfold Login.settle in He.
        destruct (Login.inflight st); [discriminate|].
        injection He as <- <-. by destruct (ok response).
      - unfold Login.settle in He.
        destruct (Login.inflight st); [discriminate|].
        by injection He as <- <-. }
    by destruct (Login.is_ok_response e).
Qed.

Lemma login_push_iff_ok_witness :
  Login.run [Login.Submit (Login.mkCredentials "a@b.c" "bad");
             Login.Settle (Login.Resolved (mkResponse 401));
             Login.Submit (Login.mkCredentials "a@b.c" "good");
             Login.Settle (Login.Resolved (mkResponse 200))] Login.initial
  = Some (Login.mkState false 0,
          [Login.Log (mkResponse 401); Login.Alert "Login failed";
           Login.Log (mkResponse 200); Login.Alert "Logged in";
           Login.Push "/dashboard"])
  /\ length (List.filter Login.is_push
               [Login.Log (mkResponse 401); Login.Alert "Login failed";
                Login.Log (mkResponse 200); Login.Alert "Logged in";
                Login.Push "/dashboard"]) = 1%nat.
Proof.
  split; [reflexivity|].
  rewrite (login_push_iff_ok
             [Login.Submit (Login.mkCredentials "a@b.c" "bad");
              Login.Settle (Login.Resolved (mkResponse 401));
              Login.Submit (Login.mkCredentials "a@b.c" "good");
              Login.Settle (Login.Resolved (mkResponse 200))]
             Login.initial (Login.mkState false 0)
             [Login.Log (mkResponse 401); Login.Alert "Login failed";
              Login.Log (mkResponse 200); Login.Alert "Logged in";
              Login.Push "/dashboard"]
             eq_refl).
  reflexivity.
Defined.
